(** * CloudMart resource-tagging dashboard: the aggregation and
      remediation-comparison computations of [script.py]

    The script is a straight-line pandas program.  Every quantity it
    derives from the table is embedded here as a function of the table(s)
    it reads, under the name of the script variable that holds it.

    Conventions of the embedding:
    - a DataFrame is the list of its rows, in row order;
    - a null cell (NaN / None) is [None];
    - [MonthlyCostUSD] is a float in the script; sums and quotients are
      taken here over exact rationals [Q], compared with [==];
    - counts ([shape[0]], [len], boolean [.sum()]) are integers [Z]. *)

From Stdlib Require Import List String ZArith QArith Bool Lia Lqa.
From Stdlib Require Import Permutation Sorted.
Import ListNotations.

Local Open Scope string_scope.

(** ** Data model *)

(** One row of the table.  [TagScore] is the column added by the script at
    line 121; it is [None] in tables that do not carry it yet. *)
Record Resource : Type := mkResource {
  ResourceID     : option string;
  Service        : option string;
  Region         : option string;
  Department     : option string;
  Project        : option string;
  Owner          : option string;
  CostCenter     : option string;
  CreatedBy      : option string;
  Environment    : option string;
  Tagged         : option string;
  MonthlyCostUSD : option Q;
  TagScore       : option Z
}.

Definition DataFrame : Type := list Resource.

(** [df[name]] for the categorical columns, cell by cell. *)
Definition column (name : string) (r : Resource) : option string :=
  if name =? "ResourceID" then ResourceID r
  else if name =? "Service" then Service r
  else if name =? "Region" then Region r
  else if name =? "Department" then Department r
  else if name =? "Project" then Project r
  else if name =? "Owner" then Owner r
  else if name =? "CostCenter" then CostCenter r
  else if name =? "CreatedBy" then CreatedBy r
  else if name =? "Environment" then Environment r
  else if name =? "Tagged" then Tagged r
  else None.

(** [cell == s]: a null cell compares unequal to every string. *)
Definition cell_eqb (v : option string) (s : string) : bool :=
  match v with
  | Some x => x =? s
  | None => false
  end.

(** [.notnull()] / [.isnull()] on one cell. *)
Definition notnull {A : Type} (v : option A) : bool :=
  match v with
  | Some _ => true
  | None => false
  end.

Definition isnull {A : Type} (v : option A) : bool := negb (notnull v).

(** [len(df)] / [df.shape[0]]. *)
Definition len (df : DataFrame) : Z := Z.of_nat (List.length df).

(** [df[df["Tagged"] == s]]. *)
Definition where_Tagged (s : string) (df : DataFrame) : DataFrame :=
  filter (fun r => cell_eqb (Tagged r) s) df.

(** [(df["Tagged"] == s).sum()]: the number of [True] entries of the mask. *)
Definition count_Tagged (s : string) (df : DataFrame) : Z :=
  fold_right (fun r n => if cell_eqb (Tagged r) s then (1 + n)%Z else n) 0%Z df.

(** [df["MonthlyCostUSD"].sum()]: null costs are skipped, the empty sum
    is 0.  The sum is the exact one: the rounding of a float64 column and
    the wrap-around of an int64 column past 2^63 are outside the
    embedding, so what is proved of sums are the identities between them,
    not bounds on them. *)
Definition MonthlyCostUSD_sum (df : DataFrame) : Q :=
  fold_right (fun r acc => match MonthlyCostUSD r with
                           | Some c => c + acc
                           | None => acc
                           end) 0 df.

(** [x > y] on costs. *)
Definition Qgtb (x y : Q) : bool := negb (Qle_bool x y).

(** The shape of the conditional the script writes out at lines 64, 90, 244
    and 249: [(n / d * 100) if d > 0 else 0]. *)
Definition percent_if_positive (n d : Q) : Q :=
  if Qgtb d 0 then n / d * 100 else 0.

(** ** Task set 1: counts (lines 36-64) *)

Definition tagged_count (df : DataFrame) : Z := count_Tagged "Yes" df.
Definition untagged_count (df : DataFrame) : Z := count_Tagged "No" df.

Definition untagged (df : DataFrame) : Z := len (where_Tagged "No" df).
Definition total (df : DataFrame) : Z := len df.

Definition percent_untagged (df : DataFrame) : Q :=
  if (total df >? 0)%Z
  then inject_Z (untagged df) / inject_Z (total df) * 100
  else 0.

(** ** Task set 2: cost visibility (lines 73-91) *)

Definition total_cost (df : DataFrame) : Q := MonthlyCostUSD_sum df.
Definition untagged_cost (df : DataFrame) : Q :=
  MonthlyCostUSD_sum (where_Tagged "No" df).
Definition tagged_cost (df : DataFrame) : Q :=
  MonthlyCostUSD_sum (where_Tagged "Yes" df).

Definition percent_untagged_cost (df : DataFrame) : Q :=
  if Qgtb (total_cost df) 0
  then untagged_cost df / total_cost df * 100
  else 0.

(** ** Task set 5.4: before / after metrics (lines 242-264) *)

Definition before_untagged_count (df_original : DataFrame) : Z :=
  count_Tagged "No" df_original.
Definition before_untagged_cost (df_original : DataFrame) : Q :=
  MonthlyCostUSD_sum (where_Tagged "No" df_original).
Definition before_untagged_pct_cost (df_original : DataFrame) : Q :=
  if Qgtb (MonthlyCostUSD_sum df_original) 0
  then before_untagged_cost df_original / MonthlyCostUSD_sum df_original * 100
  else 0.

Definition after_untagged_count (editable_df : DataFrame) : Z :=
  count_Tagged "No" editable_df.
Definition after_untagged_cost (editable_df : DataFrame) : Q :=
  MonthlyCostUSD_sum (where_Tagged "No" editable_df).
Definition after_untagged_pct_cost (editable_df : DataFrame) : Q :=
  if Qgtb (MonthlyCostUSD_sum editable_df) 0
  then after_untagged_cost editable_df / MonthlyCostUSD_sum editable_df * 100
  else 0.

(** The three "change" figures shown under the paired metrics
    (lines 254, 259, 264). *)
Definition Change (df_original editable_df : DataFrame) : Z :=
  (after_untagged_count editable_df - before_untagged_count df_original)%Z.
Definition Cost_Improvement (df_original editable_df : DataFrame) : Q :=
  before_untagged_cost df_original - after_untagged_cost editable_df.
Definition Pct_Point_Improvement (df_original editable_df : DataFrame) : Q :=
  before_untagged_pct_cost df_original - after_untagged_pct_cost editable_df.

(** ** Task set 3: tagging compliance (lines 120-135) *)

Definition tag_fields : list string :=
  ["Department"; "Project"; "Owner"; "CostCenter"; "CreatedBy"].

(** [df[tag_fields].notnull().sum(axis=1)], for one row: the [True] cells
    of the row's mask are added up. *)
Definition notnull_sum (fields : list string) (r : Resource) : Z :=
  fold_right (fun f n => ((if notnull (column f r) then 1 else 0) + n)%Z)
             0%Z fields.

Definition set_TagScore (v : option Z) (r : Resource) : Resource :=
  mkResource (ResourceID r) (Service r) (Region r) (Department r)
             (Project r) (Owner r) (CostCenter r) (CreatedBy r)
             (Environment r) (Tagged r) (MonthlyCostUSD r) v.

(** [df["TagScore"] = ...] (line 121): the table from there on. *)
Definition with_TagScore (df : DataFrame) : DataFrame :=
  map (fun r => set_TagScore (Some (notnull_sum tag_fields r)) r) df.

(** Ordering of sort keys in [sort_values]: ascending, nulls last. *)
Definition key_le (a b : option Z) : Prop :=
  match a, b with
  | Some x, Some y => (x <= y)%Z
  | _, None => True
  | None, Some _ => False
  end.

Definition key_leb (a b : option Z) : bool :=
  match a, b with
  | Some x, Some y => (x <=? y)%Z
  | _, None => true
  | None, Some _ => false
  end.

(** [df.sort_values(by="TagScore")] is called with the default sorting
    method ([kind="quicksort"]), which orders the rows by key and promises
    nothing about rows of equal key.  The call is therefore a relation
    between the table and the tables it may return: a rearrangement of the
    rows, ascending in [TagScore]. *)
Definition by_TagScore (a b : Resource) : Prop :=
  key_le (TagScore a) (TagScore b).

Definition sort_values_TagScore (df sorted : DataFrame) : Prop :=
  Permutation df sorted /\
  StronglySorted by_TagScore sorted.

(** The columns kept for display (line 127). *)
Definition lowest_compliance_columns (r : Resource)
  : option string * option string * option string * option Z * option Q :=
  (ResourceID r, Service r, Department r, TagScore r, MonthlyCostUSD r).

(** [lowest_compliance = df.sort_values(by="TagScore")[[...]].head(5)]. *)
Definition lowest_compliance (df : DataFrame)
  (shown : list (option string * option string * option string
                 * option Z * option Q)) : Prop :=
  exists sorted,
    sort_values_TagScore (with_TagScore df) sorted /\
    shown = firstn 5 (map lowest_compliance_columns sorted).

(** [untagged_df = df[df["Tagged"] == "No"].copy()] (line 135). *)
Definition untagged_df (df : DataFrame) : DataFrame :=
  where_Tagged "No" (with_TagScore df).

(** ** Task set 4.5: interactive filters (lines 194-200) *)

(** [series.isin(values)] on one cell, [values] being strings. *)
Definition isin (v : option string) (values : list string) : bool :=
  match v with
  | Some x => existsb (String.eqb x) values
  | None => false
  end.

(** Truth value of a Python list: non-empty. *)
Definition truthy {A : Type} (l : list A) : bool :=
  match l with
  | [] => false
  | _ :: _ => true
  end.

Definition filtered_df (df : DataFrame)
  (service_filter region_filter dept_filter : list string) : DataFrame :=
  let filtered_df := df in
  let filtered_df :=
    if truthy service_filter
    then filter (fun r => isin (Service r) service_filter) filtered_df
    else filtered_df in
  let filtered_df :=
    if truthy region_filter
    then filter (fun r => isin (Region r) region_filter) filtered_df
    else filtered_df in
  let filtered_df :=
    if truthy dept_filter
    then filter (fun r => isin (Department r) dept_filter) filtered_df
    else filtered_df in
  filtered_df.

(** ** Task set 5: the remediation editor (lines 211, 227-228) *)

(** [st.data_editor(untagged_df, num_rows="dynamic")] hands the table to
    the user and returns what the user left: the editor is a parameter. *)
Definition editable_df (data_editor : DataFrame -> DataFrame)
  (df : DataFrame) : DataFrame :=
  data_editor (untagged_df df).

Definition tagged_df (df : DataFrame) : DataFrame :=
  where_Tagged "Yes" (with_TagScore df).

(** [pd.concat([tagged_df, editable_df], ignore_index=True)]. *)
Definition full_remediated (data_editor : DataFrame -> DataFrame)
  (df : DataFrame) : DataFrame :=
  (tagged_df df ++ editable_df data_editor df)%list.

(** ** Group-by sums and counts (lines 57, 85, 94-107, 170) *)

(** A pandas operation either returns or raises. *)
Inductive exn : Type :=
| ValueError (msg : string).

Inductive result (A : Type) : Type :=
| Ok (a : A)
| Raise (e : exn).

Arguments Ok {A} a.
Arguments Raise {A} e.

Definition bind {A B : Type} (m : result A) (k : A -> result B) : result B :=
  match m with
  | Ok a => k a
  | Raise e => Raise e
  end.

Notation "x <- m ;; k" := (bind m (fun x => k))
  (at level 61, m at next level, right associativity).

Section GroupBy.

(** Group labels: a string for [groupby("Project")], a pair of strings
    for [groupby(["Department", "Tagged"])]; [label r] is the label of
    row [r], null as soon as one of the key cells is null. *)
Variable K : Type.
Variable compare : K -> K -> comparison.
Variable label : Resource -> option K.

(** A Series indexed by group label, in index order. *)
Definition Series : Type := list (K * Q).

(** One more row for the group [k]: its cost is added to the group's sum
    (a null cost adds nothing); a new group takes its place in label
    order ([sort=True]). *)
Fixpoint add_to_group (k : K) (cost : option Q) (groups : Series) : Series :=
  match groups with
  | [] => [(k, match cost with Some c => c | None => 0 end)]
  | (k', s) :: rest =>
      match compare k k' with
      | Eq => (k', match cost with Some c => s + c | None => s end) :: rest
      | Lt => (k, match cost with Some c => c | None => 0 end) :: groups
      | Gt => (k', s) :: add_to_group k cost rest
      end
  end.

(** [df.groupby(keys)["MonthlyCostUSD"].sum()] with the defaults
    [sort=True, dropna=True]: rows whose label is null belong to no
    group. *)
Definition groupby_sum (df : DataFrame) : Series :=
  fold_left (fun groups r =>
               match label r with
               | Some k => add_to_group k (MonthlyCostUSD r) groups
               | None => groups
               end) df [].

(** Sum of a Series. *)
Definition Series_sum (s : Series) : Q :=
  fold_right (fun kv acc => snd kv + acc) 0 s.

(** First position holding the largest value. *)
Fixpoint first_max (best : K * Q) (rest : Series) : K * Q :=
  match rest with
  | [] => best
  | kv :: rest' =>
      if Qgtb (snd kv) (snd best) then first_max kv rest'
      else first_max best rest'
  end.

(** [s.idxmax()]: raises on an empty Series. *)
Definition idxmax (s : Series) : result K :=
  match s with
  | [] => Raise (ValueError "attempt to get argmax of an empty sequence")
  | kv :: rest => Ok (fst (first_max kv rest))
  end.

(** [s.max()]: NaN on an empty Series. *)
Definition Series_max (s : Series) : option Q :=
  match s with
  | [] => None
  | kv :: rest => Some (snd (first_max kv rest))
  end.

End GroupBy.

Arguments add_to_group {K} compare k cost groups.
Arguments groupby_sum {K} compare label df.
Arguments Series_sum {K} s.
Arguments first_max {K} best rest.
Arguments idxmax {K} s.
Arguments Series_max {K} s.

(** Labels of a two-key group-by, ordered key by key. *)
Definition compare2 (a b : string * string) : comparison :=
  match String.compare (fst a) (fst b) with
  | Eq => String.compare (snd a) (snd b)
  | c => c
  end.

Definition label2 (f g : string) (r : Resource) : option (string * string) :=
  match column f r, column g r with
  | Some x, Some y => Some (x, y)
  | _, _ => None
  end.

Definition cost_by_tag (df : DataFrame) : Series string :=
  groupby_sum String.compare (column "Tagged") df.

Definition untagged_by_dept (df : DataFrame) : Series string :=
  groupby_sum String.compare (column "Department") (where_Tagged "No" df).

Definition project_cost (df : DataFrame) : Series string :=
  groupby_sum String.compare (column "Project") df.

Definition env_tagged (df : DataFrame) : Series (string * string) :=
  groupby_sum compare2 (label2 "Environment" "Tagged") df.

Definition env_cost (df : DataFrame) : Series string :=
  groupby_sum String.compare (column "Environment") df.

Definition dept_cost (df : DataFrame) : Series (string * string) :=
  groupby_sum compare2 (label2 "Department" "Tagged") df.

(** What a section of the page shows. *)
Inductive Shown : Type :=
| st_write (name : string) (value : option Q)
| st_info (msg : string).

(** Section 2.3 (lines 94-101). *)
Definition most_untagged_dept (df : DataFrame) : result Shown :=
  let untagged_by_dept := untagged_by_dept df in
  if (Z.of_nat (List.length untagged_by_dept) >? 0)%Z
  then
    most_untagged_dept <- idxmax untagged_by_dept ;;
    let most_untagged_cost := Series_max untagged_by_dept in
    Ok (st_write most_untagged_dept most_untagged_cost)
  else Ok (st_info "No untagged resources found").

(** Section 2.4 (lines 104-107). *)
Definition highest_cost_project (df : DataFrame) : result Shown :=
  let project_cost := project_cost df in
  highest_cost_project <- idxmax project_cost ;;
  let highest_cost_value := Series_max project_cost in
  Ok (st_write highest_cost_project highest_cost_value).

(** [series.value_counts(dropna=...)]: one entry per distinct value with
    its number of rows; null cells are counted only when [dropna] is
    false.  The entries are kept in order of first appearance; the Series
    is read below as a mapping, through [counts_get]. *)
Definition cell_eq (a b : option string) : bool :=
  match a, b with
  | Some x, Some y => x =? y
  | None, None => true
  | _, _ => false
  end.

Fixpoint bump (v : option string) (counts : list (option string * Z))
  : list (option string * Z) :=
  match counts with
  | [] => [(v, 1%Z)]
  | (v', n) :: rest =>
      if cell_eq v v' then (v', (n + 1)%Z) :: rest
      else (v', n) :: bump v rest
  end.

Definition value_counts (dropna : bool) (s : list (option string))
  : list (option string * Z) :=
  fold_left (fun counts v =>
               if dropna && isnull v then counts else bump v counts) s [].

Fixpoint counts_get (v : option string) (counts : list (option string * Z))
  : option Z :=
  match counts with
  | [] => None
  | (v', n) :: rest => if cell_eq v v' then Some n else counts_get v rest
  end.

(** [tagged_counts = df['Tagged'].value_counts()] (line 57): [dropna]
    keeps its default, [True]. *)
Definition tagged_counts (df : DataFrame) : list (option string * Z) :=
  value_counts true (map Tagged df).

(** ** The operations as the specification words them

    These definitions follow the specification's sentences, not the
    script; the theorems below compare the two. *)

Module Spec.

(** "pct(numerator, denominator) = numerator/denominator * 100 and MUST
    return 0 when denominator is 0." *)
Definition pct (numerator denominator : Q) : Q :=
  if Qeq_bool denominator 0 then 0 else numerator / denominator * 100.

(** "count of non-null values among the five designated tag fields
    {Department, Project, Owner, CostCenter, CreatedBy}": the values that
    are there are collected, field by field, and counted. *)
Definition present (cell : option string) : list string :=
  match cell with
  | Some v => [v]
  | None => []
  end.

Definition nonnull_tag_fields (r : Resource) : Z :=
  Z.of_nat (List.length
              (present (Department r) ++ present (Project r)
               ++ present (Owner r) ++ present (CostCenter r)
               ++ present (CreatedBy r))%list).

(** "for every field present in filters with a non-empty allowed-value
    set, the resource's value for that field is a member of the allowed
    set". *)
Definition allows (filters : list (string * list string)) (r : Resource)
  : Prop :=
  forall field allowed,
    In (field, allowed) filters -> allowed <> [] ->
    exists v, column field r = Some v /\ In v allowed.

Definition allowsb (filters : list (string * list string)) (r : Resource)
  : bool :=
  forallb (fun fa => match snd fa with
                     | [] => true
                     | _ :: _ => isin (column (fst fa) r) (snd fa)
                     end) filters.

Definition applyFilters (D : DataFrame)
  (filters : list (string * list string)) : DataFrame :=
  filter (allowsb filters) D.

(** "stable sort ascending by TagScore, ties broken by original row
    order, truncated to N": insertion sort, a row going before the rows
    already placed (which come later in the table) that do not have a
    smaller key. *)
Fixpoint insert (r : Resource) (sorted : DataFrame) : DataFrame :=
  match sorted with
  | [] => [r]
  | x :: rest =>
      if key_leb (TagScore r) (TagScore x)
      then r :: sorted
      else x :: insert r rest
  end.

Definition stable_sort (D : DataFrame) : DataFrame :=
  fold_right insert [] D.

Definition lowest_compliance (N : nat) (D : DataFrame) : DataFrame :=
  firstn N (stable_sort D).

(** The metrics of section 4.5, in the specification's own terms: the
    untagged rows are the rows whose Tagged is the string No; a sum of
    MonthlyCostUSD takes a missing cost as 0; the percentage is [pct]. *)
Record Metrics : Type := mkMetrics {
  count : Z;
  cost : Q;
  pct_cost : Q
}.

Definition is_untagged (r : Resource) : bool :=
  match Tagged r with
  | Some t => if string_dec t "No" then true else false
  | None => false
  end.

Fixpoint untagged_rows (subset : DataFrame) : DataFrame :=
  match subset with
  | [] => []
  | r :: rest =>
      if is_untagged r then r :: untagged_rows rest else untagged_rows rest
  end.

Fixpoint sum_cost (subset : DataFrame) : Q :=
  match subset with
  | [] => 0
  | r :: rest =>
      match MonthlyCostUSD r with
      | Some c => c
      | None => 0
      end + sum_cost rest
  end.

Definition metrics (subset : DataFrame) : Metrics :=
  mkMetrics (Z.of_nat (List.length (untagged_rows subset)))
            (sum_cost (untagged_rows subset))
            (pct (sum_cost (untagged_rows subset)) (sum_cost subset)).

(** "mapping from each distinct key value to row count": the number of
    rows whose key cell is [v] ([None] for the missing category). *)
Definition groupCount (key : Resource -> option string) (D : DataFrame)
  (v : option string) : Z :=
  Z.of_nat (List.length (filter (fun r => cell_eq (key r) v) D)).

End Spec.

(** ** Sample tables *)

Definition resource (id : string) (dept : option string) (tagged : string)
  (cost : Q) : Resource :=
  mkResource (Some id) (Some "EC2") (Some "us-east-1") dept None None None
             None (Some "Prod") (Some tagged) (Some cost) None.

(** The four-row table of the specification's scenarios. *)
Definition D4 : DataFrame :=
  [ resource "r1" (Some "Eng") "Yes" 100;
    resource "r2" (Some "Eng") "No" 50;
    resource "r3" (Some "Ops") "No" 30;
    resource "r4" (Some "Ops") "Yes" 20 ].

(** An untagged charge outweighed by a credit: the costs sum to -50. *)
Definition D_credit : DataFrame :=
  [ resource "r1" (Some "Eng") "No" 50;
    resource "r2" (Some "Eng") "Yes" (-100) ].

(** One resource with no tag at all. *)
Definition bare (id : string) : Resource :=
  mkResource (Some id) (Some "S3") (Some "eu-west-1") None None None None
             None (Some "Dev") (Some "No") (Some 10) None.

(** One resource whose [Tagged] cell is empty. *)
Definition D_null_Tagged : DataFrame :=
  [ mkResource (Some "r1") (Some "S3") (Some "eu-west-1") (Some "Eng") None
               None None None (Some "Dev") None (Some 10) None;
    resource "r2" (Some "Eng") "Yes" 5 ].

(** An editor session that fills in the department of every row, as the
    page invites the user to do. *)
Definition fill_Department (dept : string) (table : DataFrame) : DataFrame :=
  map (fun r =>
         mkResource (ResourceID r) (Service r) (Region r) (Some dept)
                    (Project r) (Owner r) (CostCenter r) (CreatedBy r)
                    (Environment r) (Tagged r) (MonthlyCostUSD r)
                    (TagScore r)) table.

(** The [TagScore] cell of a displayed row. *)
Definition shown_TagScore
  (row : option string * option string * option string * option Z * option Q)
  : option Z :=
  snd (fst row).

(** The entry of a mapping of counts after [n] more rows of its key; a key
    without rows has no entry. *)
Definition add_count (entry : option Z) (n : Z) : option Z :=
  match entry with
  | Some m => Some (m + n)%Z
  | None => if (n =? 0)%Z then None else Some n
  end.

(** The cells of a column equal to [v] that [value_counts] does not drop. *)
Definition counted (dropna : bool) (v : option string)
  (s : list (option string)) : list (option string) :=
  filter (fun x => cell_eq v x && negb (dropna && isnull x)) s.

(** What a cost cell adds to a sum. *)
Definition cost_or_0 (cost : option Q) : Q :=
  match cost with
  | Some c => c
  | None => 0
  end.

(** Two resources, one of them assigned to no project. *)
Definition D_null_Project : DataFrame :=
  [ mkResource (Some "r1") (Some "EC2") (Some "us-east-1") (Some "Eng")
               (Some "Apollo") None None None (Some "Prod") (Some "Yes")
               (Some 40) None;
    mkResource (Some "r2") (Some "S3") (Some "us-east-1") (Some "Eng")
               None None None None (Some "Prod") (Some "No")
               (Some 10) None ].

(** A row whose [TagScore] cell agrees with its current tag fields. *)
Definition TagScore_current (r : Resource) : Prop :=
  TagScore r = Some (Spec.nonnull_tag_fields r).

(** A [Tagged] cell that is "Yes" or "No"; any other cell, the empty one
    included, is neither. *)
Definition Yes_or_No (r : Resource) : Prop :=
  Tagged r = Some "Yes" \/ Tagged r = Some "No".

Definition neither_Yes_nor_No (r : Resource) : bool :=
  negb (cell_eqb (Tagged r) "Yes") && negb (cell_eqb (Tagged r) "No").

(** The two cells of a row that the before / after metrics read. *)
Definition tagging_and_cost (r : Resource) : option string * option Q :=
  (Tagged r, MonthlyCostUSD r).

(** What the index order of a group-by relies on: [compare] decides
    equality and is a strict order. *)
Record comparison_order {K : Type} (compare : K -> K -> comparison)
  : Prop := {
  compare_eq : forall a b, compare a b = Eq <-> a = b;
  compare_antisym : forall a b, compare a b = CompOpp (compare b a);
  compare_trans : forall a b c,
      compare a b = Lt -> compare b c = Lt -> compare a c = Lt
}.

(** [series.get(k)]: the entry of label [k], if there is one. *)
Fixpoint Series_get {K : Type} (compare : K -> K -> comparison) (k : K)
  (s : Series K) : option Q :=
  match s with
  | [] => None
  | (k', v) :: rest =>
      match compare k k' with
      | Eq => Some v
      | _ => Series_get compare k rest
      end
  end.

(** The sum of a group after one more of its rows, as [add_to_group]
    computes it. *)
Definition add_cost (entry : option Q) (cost : option Q) : Q :=
  match entry with
  | Some s => match cost with Some c => s + c | None => s end
  | None => match cost with Some c => c | None => 0 end
  end.

(** Rows of label [k]. *)
Definition labelled {K : Type} (compare : K -> K -> comparison)
  (label : Resource -> option K) (k : K) (r : Resource) : bool :=
  match label r with
  | Some k' => match compare k k' with Eq => true | _ => false end
  | None => false
  end.

(** The sum of the rows of label [k], taken in row order; [None] when
    there is no such row. *)
Definition group_total {K : Type} (compare : K -> K -> comparison)
  (label : Resource -> option K) (k : K) (df : DataFrame)
  (entry : option Q) : option Q :=
  fold_left (fun entry r =>
               if labelled compare label k r
               then Some (add_cost entry (MonthlyCostUSD r))
               else entry) df entry.

Definition label_lt {K : Type} (compare : K -> K -> comparison)
  (a b : K * Q) : Prop :=
  compare (fst a) (fst b) = Lt.

(** Sum of the counts of a mapping. *)
Definition counts_sum (counts : list (option string * Z)) : Z :=
  fold_right (fun kv n => (snd kv + n)%Z) 0%Z counts.

(** An editing session that changes nothing. *)
Definition no_edit (table : DataFrame) : DataFrame := table.

(** [value_counts] with its default [dropna=True], from the counts of the
    cells read so far. *)
Definition count_into (counts : list (option string * Z))
  (s : list (option string)) : list (option string * Z) :=
  fold_left (fun counts v =>
               if true && isnull v then counts else bump v counts) s counts.

(** ** The options of the department filter (line 191) *)

(** [series.dropna().unique()]: the non-null values, each once, in order of
    first appearance; [seen] holds the values met so far. *)
Fixpoint unique_values (cells : list (option string)) (seen : list string)
  : list string :=
  match cells with
  | [] => []
  | None :: rest => unique_values rest seen
  | Some x :: rest =>
      if existsb (String.eqb x) seen then unique_values rest seen
      else x :: unique_values rest (x :: seen)
  end.

(** [sorted(values)] on strings: ascending, equal values kept in order. *)
Fixpoint insert_ascending (x : string) (l : list string) : list string :=
  match l with
  | [] => [x]
  | y :: rest =>
      match String.compare x y with
      | Gt => y :: insert_ascending x rest
      | _ => x :: l
      end
  end.

Definition sorted (values : list string) : list string :=
  fold_right insert_ascending [] values.

Definition dept_options (df : DataFrame) : list string :=
  sorted (unique_values (map Department df) []).

(** ** Most frequently missing tag fields (line 131) *)

(** [df[fields].isnull().sum()]: per column, the number of null cells. *)
Definition isnull_sum (fields : list string) (df : DataFrame)
  : list (string * Z) :=
  map (fun f =>
         (f, Z.of_nat (List.length
                         (filter (fun r => isnull (column f r)) df))))
      fields.

(** [.sort_values(ascending=False)], again with the default method: some
    rearrangement of the entries in descending order of count. *)
Definition missing_tags (df : DataFrame) (sorted : list (string * Z))
  : Prop :=
  Permutation (isnull_sum tag_fields df) sorted /\
  StronglySorted (fun a b => (snd b <= snd a)%Z) sorted.

Definition Zsum (l : list Z) : Z := fold_right Z.add 0%Z l.

(** ** Loading (lines 7-13) *)

(** A Python [str]: the sequence of its code points. *)
Definition text : Type := list N.

Definition newline : N := 10%N.
Definition quote : N := 34%N.

Definition is_quote (c : N) : bool := (c =? quote)%N.

(** [c.isspace()]. *)
Definition isspace (c : N) : bool :=
  ((9 <=? c) && (c <=? 13) || (28 <=? c) && (c <=? 32)
   || (c =? 133) || (c =? 160) || (c =? 5760)
   || (8192 <=? c) && (c <=? 8202)
   || (c =? 8232) || (c =? 8233) || (c =? 8239) || (c =? 8287)
   || (c =? 12288))%N.

(** [s.split(sep)] for a one-character separator: never the empty list. *)
Fixpoint split (sep : N) (s : text) : list text :=
  match s with
  | [] => [[]]
  | c :: rest =>
      if (c =? sep)%N then [] :: split sep rest
      else match split sep rest with
           | [] => [[c]]
           | l :: ls => (c :: l) :: ls
           end
  end.

(** [sep.join(parts)]. *)
Fixpoint join (sep : N) (parts : list text) : text :=
  match parts with
  | [] => []
  | [l] => l
  | l :: rest => (l ++ sep :: join sep rest)%list
  end.

(** [s.lstrip(chars)], [s.rstrip(chars)], [s.strip(chars)], the set of
    characters given by its membership test. *)
Fixpoint lstrip (chars : N -> bool) (s : text) : text :=
  match s with
  | [] => []
  | c :: rest => if chars c then lstrip chars rest else s
  end.

Definition rstrip (chars : N -> bool) (s : text) : text :=
  rev (lstrip chars (rev s)).

Definition strip (chars : N -> bool) (s : text) : text :=
  rstrip chars (lstrip chars s).

Definition lines (content : text) : list text := split newline content.

(** The comprehension of line 12: of the lines that [line.strip()] does not
    empty, each with the double quotes at its two ends removed. *)
Definition cleaned_lines (content : text) : list text :=
  map (strip is_quote)
      (filter (fun line => truthy (strip isspace line)) (lines content)).

Definition cleaned_csv (content : text) : text :=
  join newline (cleaned_lines content).

Definition first_char (s : text) : option N := hd_error s.
Definition last_char (s : text) : option N := hd_error (rev s).

(** A line that the cleaning leaves as it is: not blank, no double quote at
    either end. *)
Definition plain_line (line : text) : Prop :=
  truthy (strip isspace line) = true /\
  first_char line <> Some quote /\ last_char line <> Some quote.

(** The code points of an ASCII literal. *)
Definition of_string (s : string) : text :=
  map Ascii.N_of_ascii (list_ascii_of_string s).

(** A header and one record, each wrapped in double quotes, with an empty
    line between them. *)
Definition quoted_csv : text :=
  (quote :: of_string "ResourceID,Tagged" ++ [quote; newline; newline]
   ++ quote :: of_string "r1,No" ++ [quote])%list.

Definition plain_csv : text :=
  (of_string "ResourceID,Tagged" ++ newline :: of_string "r1,No")%list.

(** ** The summary text (lines 288, 298) *)

(** A float64 as numpy computes it: a number, or what a division by zero
    leaves (numpy warns and goes on). *)
Inductive float64 : Type :=
| finite (q : Q)
| nan
| inf (positive : bool).

(** [count / n] for a numpy integer [count] and an integer [n]. *)
Definition true_divide (count n : Z) : float64 :=
  if (n =? 0)%Z
  then if (count =? 0)%Z then nan else inf (0 <? count)%Z
  else finite (inject_Z count / inject_Z n).

(** [x * 100]. *)
Definition times_100 (x : float64) : float64 :=
  match x with
  | finite q => finite (q * 100)
  | nan => nan
  | inf positive => inf positive
  end.

(** [before_untagged_count/len(df_original)*100] (line 288) and
    [after_untagged_count/len(editable_df)*100] (line 298): no test on the
    length. *)
Definition summary_before_pct (df_original : DataFrame) : float64 :=
  times_100 (true_divide (before_untagged_count df_original)
                         (len df_original)).

Definition summary_after_pct (editable_df : DataFrame) : float64 :=
  times_100 (true_divide (after_untagged_count editable_df)
                         (len editable_df)).

(** ** Sample tables the whole page accepts

    Every row is an EC2 resource (the default selection of the service
    filter) with a project (section 2.4 needs one). *)

Definition ec2 (id : string) (dept : option string) (project tagged : string)
  (cost : Q) : Resource :=
  mkResource (Some id) (Some "EC2") (Some "us-east-1") dept (Some project)
             None None None (Some "Prod") (Some tagged) (Some cost) None.

(** The four-row scenario, each resource with a project. *)
Definition D4_Apollo : DataFrame :=
  [ ec2 "r1" (Some "Eng") "Apollo" "Yes" 100;
    ec2 "r2" (Some "Eng") "Apollo" "No" 50;
    ec2 "r3" (Some "Ops") "Zeus" "No" 30;
    ec2 "r4" (Some "Ops") "Zeus" "Yes" 20 ].

(** An untagged charge outweighed by a credit. *)
Definition D_credit_Apollo : DataFrame :=
  [ ec2 "r1" (Some "Eng") "Apollo" "No" 50;
    ec2 "r2" (Some "Eng") "Apollo" "Yes" (-100) ].

(** Two untagged resources, the first without department. *)
Definition D_no_dept : DataFrame :=
  [ ec2 "r1" None "Apollo" "No" 10;
    ec2 "r2" (Some "Eng") "Apollo" "No" 20 ].

(** Two resources with department and project, then two with a project
    only: the scores are 2, 2, 1, 1. *)
Definition D_ranking : DataFrame :=
  [ ec2 "A" (Some "Eng") "Apollo" "Yes" 10;
    ec2 "B" (Some "Eng") "Apollo" "Yes" 20;
    ec2 "C" None "Apollo" "No" 30;
    ec2 "D" None "Apollo" "No" 40 ].

Definition D_ranking_reversed : DataFrame := rev D_ranking.

(** * Properties *)

(** ** Guards and percentages *)

Lemma Qgtb_true (x y : Q) : Qgtb x y = true <-> y < x.
Proof.
  unfold Qgtb. rewrite negb_true_iff, <- not_true_iff_false, Qle_bool_iff.
  split; [apply Qnot_le_lt | apply Qlt_not_le].
Qed.

Lemma Qgtb_false (x y : Q) : Qgtb x y = false <-> x <= y.
Proof.
  unfold Qgtb. rewrite negb_false_iff. apply Qle_bool_iff.
Qed.

Lemma percent_if_positive_pos (n d : Q) :
  0 < d -> percent_if_positive n d = n / d * 100.
Proof.
  intros H. unfold percent_if_positive.
  now rewrite (proj2 (Qgtb_true d 0) H).
Qed.

Lemma percent_if_positive_nonpos (n d : Q) :
  d <= 0 -> percent_if_positive n d = 0.
Proof.
  intros H. unfold percent_if_positive.
  now rewrite (proj2 (Qgtb_false d 0) H).
Qed.

Lemma pct_zero (x d : Q) : d == 0 -> Spec.pct x d == 0.
Proof.
  intros H. unfold Spec.pct.
  rewrite (Qeq_eq_bool _ _ H). reflexivity.
Qed.

Lemma pct_nonzero (x d : Q) : ~ d == 0 -> Spec.pct x d == x / d * 100.
Proof.
  intros H. unfold Spec.pct.
  destruct (Qeq_bool d 0) eqn:E.
  - apply Qeq_bool_eq in E. contradiction.
  - reflexivity.
Qed.

(** On a non-negative denominator the script's conditional is the
    specification's [pct]. *)
Lemma percent_if_positive_pct (n d : Q) :
  0 <= d -> percent_if_positive n d == Spec.pct n d.
Proof.
  intros H. destruct (Qlt_le_dec 0 d) as [Hpos | Hle].
  - rewrite percent_if_positive_pos by assumption.
    rewrite pct_nonzero; [reflexivity |].
    intros E. rewrite E in Hpos. exact (Qlt_irrefl 0 Hpos).
  - rewrite percent_if_positive_nonpos by assumption.
    rewrite pct_zero; [reflexivity |].
    apply Qle_antisym; assumption.
Qed.

(** The four percentages are instances of the one conditional. *)
Lemma percent_untagged_unfold (df : DataFrame) :
  percent_untagged df
  = percent_if_positive (inject_Z (untagged df)) (inject_Z (total df)).
Proof.
  unfold percent_untagged, percent_if_positive, Qgtb, Qle_bool. simpl.
  rewrite Z.mul_1_r.
  destruct (total df) eqn:E; reflexivity.
Qed.

Lemma percent_untagged_cost_unfold (df : DataFrame) :
  percent_untagged_cost df
  = percent_if_positive (untagged_cost df) (total_cost df).
Proof. reflexivity. Qed.

Lemma before_untagged_pct_cost_unfold (df_original : DataFrame) :
  before_untagged_pct_cost df_original
  = percent_if_positive (before_untagged_cost df_original)
                        (MonthlyCostUSD_sum df_original).
Proof. reflexivity. Qed.

Lemma after_untagged_pct_cost_unfold (editable_df : DataFrame) :
  after_untagged_pct_cost editable_df
  = percent_if_positive (after_untagged_cost editable_df)
                        (MonthlyCostUSD_sum editable_df).
Proof. reflexivity. Qed.

Lemma total_nonneg (df : DataFrame) : (0 <= total df)%Z.
Proof. unfold total, len. lia. Qed.

Lemma len_nonempty (df : DataFrame) : df <> [] -> (0 < len df)%Z.
Proof.
  destruct df; [contradiction | intros _; unfold len; cbn [List.length]; lia].
Qed.

Lemma summary_pct_finite (count n : Z) :
  (0 < n)%Z ->
  exists q, times_100 (true_divide count n) = finite q /\
            q == Spec.pct (inject_Z count) (inject_Z n).
Proof.
  intros Hn. unfold true_divide.
  destruct (Z.eqb_spec n 0) as [E | _]; [lia |].
  eexists. split; [reflexivity |].
  rewrite pct_nonzero; [reflexivity |].
  change 0 with (inject_Z 0). rewrite inject_Z_injective. lia.
Qed.




(** C10: the guard of the cost percentages is [> 0]: when the total
    MonthlyCostUSD is negative, each of them is 0, not the quotient.  The
    count percentage has the same guard, and its total is never
    negative. *)
Theorem percentages_on_negative_totals
  (df df_original editable_df : DataFrame) :
  total_cost df < 0 ->
  MonthlyCostUSD_sum df_original < 0 ->
  MonthlyCostUSD_sum editable_df < 0 ->
  percent_untagged_cost df = 0 /\
  before_untagged_pct_cost df_original = 0 /\
  after_untagged_pct_cost editable_df = 0 /\
  percent_untagged df
    = percent_if_positive (inject_Z (untagged df)) (inject_Z (total df)) /\
  (0 <= total df)%Z.
Proof.
  intros Hdf Horig Hedit.
  split; [| split; [| split; [| split]]].
  - rewrite percent_untagged_cost_unfold.
    apply percent_if_positive_nonpos, Qlt_le_weak, Hdf.
  - rewrite before_untagged_pct_cost_unfold.
    apply percent_if_positive_nonpos, Qlt_le_weak, Horig.
  - rewrite after_untagged_pct_cost_unfold.
    apply percent_if_positive_nonpos, Qlt_le_weak, Hedit.
  - apply percent_untagged_unfold.
  - apply total_nonneg.
Qed.

Lemma percentages_on_negative_totals_witness :
  percent_untagged_cost D_credit = 0 /\
  before_untagged_pct_cost D_credit = 0 /\
  after_untagged_pct_cost D_credit = 0 /\
  ~ untagged_cost D_credit / total_cost D_credit * 100 == 0.
Proof.
  assert (H : total_cost D_credit < 0) by reflexivity.
  destruct (percentages_on_negative_totals D_credit D_credit D_credit H H H)
    as (H1 & H2 & H3 & _).
  repeat split; try assumption.
  vm_compute. discriminate.
Defined.

(** ** The remediation comparator *)

Lemma count_Tagged_length (s : string) (df : DataFrame) :
  count_Tagged s df = Z.of_nat (List.length (where_Tagged s df)).
Proof.
  unfold count_Tagged, where_Tagged.
  induction df as [| r df IH]; cbn [fold_right filter]; [reflexivity |].
  rewrite IH. destruct (cell_eqb (Tagged r) s); cbn [List.length]; lia.
Qed.

Lemma where_Tagged_No_untagged_rows (df : DataFrame) :
  where_Tagged "No" df = Spec.untagged_rows df.
Proof.
  unfold where_Tagged.
  induction df as [| r df IH]; cbn [filter Spec.untagged_rows];
    [reflexivity |].
  assert (E : cell_eqb (Tagged r) "No" = Spec.is_untagged r).
  { unfold cell_eqb, Spec.is_untagged.
    destruct (Tagged r) as [t |]; [| reflexivity].
    destruct (string_dec t "No") as [-> | Hne]; [reflexivity |].
    now apply String.eqb_neq. }
  rewrite E, IH. reflexivity.
Qed.

Lemma MonthlyCostUSD_sum_sum_cost (df : DataFrame) :
  MonthlyCostUSD_sum df == Spec.sum_cost df.
Proof.
  induction df as [| r df IH]; [reflexivity |].
  unfold MonthlyCostUSD_sum. cbn [fold_right Spec.sum_cost].
  fold (MonthlyCostUSD_sum df).
  destruct (MonthlyCostUSD r); rewrite IH; ring.
Qed.

Lemma pct_compat (n n' d d' : Q) :
  n == n' -> d == d' -> Spec.pct n d == Spec.pct n' d'.
Proof.
  intros Hn Hd. unfold Spec.pct. rewrite <- Hd.
  destruct (Qeq_bool d 0); [reflexivity |].
  now rewrite Hn, Hd.
Qed.

Lemma guarded_pct_is_pct (n d : Q) (rows all : DataFrame) :
  n == Spec.sum_cost rows -> d == Spec.sum_cost all ->
  0 <= Spec.sum_cost all ->
  percent_if_positive n d
  == Spec.pct (Spec.sum_cost rows) (Spec.sum_cost all).
Proof.
  intros Hn Hd Hpos.
  rewrite percent_if_positive_pct by (rewrite Hd; exact Hpos).
  now apply pct_compat.
Qed.

(** C2, as amended: with [before] the specification's metrics of the
    original snapshot and [after] those of one dataset, the edited subset,
    the count change shown is after.count - before.count and the cost
    improvement is before.cost - after.cost; the percentage-point
    improvement is before.pct - after.pct when neither snapshot has a
    negative total cost. *)
Theorem deltas_of_one_after_dataset (df_original editable_df : DataFrame) :
  let before := Spec.metrics df_original in
  let after := Spec.metrics editable_df in
  Change df_original editable_df
    = (Spec.count after - Spec.count before)%Z /\
  Cost_Improvement df_original editable_df
    == Spec.cost before - Spec.cost after /\
  (0 <= Spec.sum_cost df_original -> 0 <= Spec.sum_cost editable_df ->
   Pct_Point_Improvement df_original editable_df
     == Spec.pct_cost before - Spec.pct_cost after).
Proof.
  cbv zeta. unfold Spec.metrics. cbn [Spec.count Spec.cost Spec.pct_cost].
  split; [| split].
  - unfold Change, after_untagged_count, before_untagged_count.
    now rewrite !count_Tagged_length, !where_Tagged_No_untagged_rows.
  - unfold Cost_Improvement, before_untagged_cost, after_untagged_cost.
    now rewrite !MonthlyCostUSD_sum_sum_cost,
      !where_Tagged_No_untagged_rows.
  - intros Hb Ha. unfold Pct_Point_Improvement.
    rewrite before_untagged_pct_cost_unfold, after_untagged_pct_cost_unfold.
    unfold before_untagged_cost, after_untagged_cost.
    rewrite (guarded_pct_is_pct _ _ (Spec.untagged_rows df_original)
               df_original), (guarded_pct_is_pct _ _
               (Spec.untagged_rows editable_df) editable_df);
      try assumption; try apply MonthlyCostUSD_sum_sum_cost;
      try (rewrite MonthlyCostUSD_sum_sum_cost,
             where_Tagged_No_untagged_rows; reflexivity).
    reflexivity.
Qed.

Lemma deltas_of_one_after_dataset_witness :
  Change D4_Apollo [] = (-2)%Z /\
  Cost_Improvement D4_Apollo [] == 80 /\
  Pct_Point_Improvement D4_Apollo []
  == Spec.pct_cost (Spec.metrics D4_Apollo) - Spec.pct_cost (Spec.metrics []).
Proof.
  destruct (deltas_of_one_after_dataset D4_Apollo []) as (H1 & H2 & H3).
  split; [exact H1 |]. split; [exact H2 |].
  apply H3; vm_compute; discriminate.
Defined.

(** C2, as stated, fails on a negative total: an untagged charge of 50 and
    a tagged credit of 100 total -50; with the untagged subset unedited the
    page shows 0 - 100 = -100 percentage points, while the percentages of
    the two snapshots are -100 and 100 and differ by -200. *)
Lemma pct_point_delta_negative_total :
  let edited := editable_df no_edit D_credit_Apollo in
  Pct_Point_Improvement D_credit_Apollo edited == -100 /\
  Spec.pct_cost (Spec.metrics D_credit_Apollo)
  - Spec.pct_cost (Spec.metrics edited) == -200 /\
  ~ Pct_Point_Improvement D_credit_Apollo edited
    == Spec.pct_cost (Spec.metrics D_credit_Apollo)
       - Spec.pct_cost (Spec.metrics edited).
Proof.
  cbv zeta. split; [reflexivity |]. split; [reflexivity |].
  vm_compute. discriminate.
Qed.

(** ** Tag completeness score *)

Lemma notnull_sum_tag_fields (r : Resource) :
  notnull_sum tag_fields r = Spec.nonnull_tag_fields r.
Proof.
  unfold notnull_sum, tag_fields, Spec.nonnull_tag_fields.
  cbn [fold_right]. unfold column. cbn [String.eqb Ascii.eqb Bool.eqb].
  destruct (Department r), (Project r), (Owner r), (CostCenter r),
    (CreatedBy r); reflexivity.
Qed.

Lemma nonnull_tag_fields_range (r : Resource) :
  (0 <= Spec.nonnull_tag_fields r <= 5)%Z.
Proof.
  unfold Spec.nonnull_tag_fields.
  destruct (Department r), (Project r), (Owner r), (CostCenter r),
    (CreatedBy r); cbn; lia.
Qed.

Lemma nonnull_tag_fields_set_TagScore (v : option Z) (r : Resource) :
  Spec.nonnull_tag_fields (set_TagScore v r) = Spec.nonnull_tag_fields r.
Proof. reflexivity. Qed.

Lemma with_TagScore_current (df : DataFrame) :
  Forall TagScore_current (with_TagScore df).
Proof.
  unfold with_TagScore. apply Forall_map, Forall_forall. intros r _.
  unfold TagScore_current.
  rewrite nonnull_tag_fields_set_TagScore, <- notnull_sum_tag_fields.
  reflexivity.
Qed.

Lemma where_Tagged_Forall (P : Resource -> Prop) (s : string)
  (df : DataFrame) :
  Forall P df -> Forall P (where_Tagged s df).
Proof.
  intros H. apply Forall_forall. intros r Hr.
  apply filter_In in Hr. destruct Hr as [Hr _].
  revert r Hr. now apply Forall_forall.
Qed.



(** The after-metrics do not read the [TagScore] column. *)
Lemma where_Tagged_set_TagScore (f : Resource -> option Z) (s : string)
  (t : DataFrame) :
  where_Tagged s (map (fun r => set_TagScore (f r) r) t)
  = map (fun r => set_TagScore (f r) r) (where_Tagged s t).
Proof.
  unfold where_Tagged.
  induction t as [| r t IH]; cbn [map filter]; [reflexivity |].
  change (Tagged (set_TagScore (f r) r)) with (Tagged r).
  destruct (cell_eqb (Tagged r) s); cbn [map]; now rewrite IH.
Qed.

Lemma MonthlyCostUSD_sum_set_TagScore (f : Resource -> option Z)
  (t : DataFrame) :
  MonthlyCostUSD_sum (map (fun r => set_TagScore (f r) r) t)
  = MonthlyCostUSD_sum t.
Proof.
  unfold MonthlyCostUSD_sum.
  induction t as [| r t IH]; cbn [map fold_right]; [reflexivity |].
  now rewrite IH.
Qed.

Lemma count_Tagged_set_TagScore (f : Resource -> option Z) (s : string)
  (t : DataFrame) :
  count_Tagged s (map (fun r => set_TagScore (f r) r) t) = count_Tagged s t.
Proof.
  unfold count_Tagged.
  induction t as [| r t IH]; cbn [map fold_right]; [reflexivity |].
  now rewrite IH.
Qed.

(** C9, as amended: the score is computed once, when the table is scored
    (line 121).  In that table, in the untagged subset handed to the editor
    and in the tagged subset, every row's TagScore is the number of
    non-null values among its five tag fields.  The script does not
    recompute the column on what the editor returns, and the after-metrics
    do not read it: they are the same whatever the TagScore cells of the
    edited subset hold. *)
Theorem TagScore_computed_once (df : DataFrame) :
  Forall TagScore_current (with_TagScore df) /\
  Forall TagScore_current (untagged_df df) /\
  Forall TagScore_current (tagged_df df) /\
  (forall (f : Resource -> option Z) (editable_df : DataFrame),
      let rescored := map (fun r => set_TagScore (f r) r) editable_df in
      after_untagged_count rescored = after_untagged_count editable_df /\
      after_untagged_cost rescored = after_untagged_cost editable_df /\
      after_untagged_pct_cost rescored = after_untagged_pct_cost editable_df).
Proof.
  repeat split.
  - apply with_TagScore_current.
  - apply where_Tagged_Forall, with_TagScore_current.
  - apply where_Tagged_Forall, with_TagScore_current.
  - apply count_Tagged_set_TagScore.
  - unfold after_untagged_cost.
    now rewrite where_Tagged_set_TagScore, MonthlyCostUSD_sum_set_TagScore.
  - unfold after_untagged_pct_cost, after_untagged_cost.
    now rewrite where_Tagged_set_TagScore, !MonthlyCostUSD_sum_set_TagScore.
Qed.

(** C9, as stated, fails once the user edits a tag: of two untagged EC2
    resources with a project, the first has no department and score 1;
    after the editor sets the department of both it has two non-null tag
    fields and still carries score 1. *)
Lemma TagScore_stale_after_edit :
  let edited := editable_df (fill_Department "Finance") D_no_dept in
  map ResourceID edited = [Some "r1"; Some "r2"] /\
  map TagScore edited = [Some 1%Z; Some 2%Z] /\
  map Spec.nonnull_tag_fields edited = [2%Z; 2%Z] /\
  ~ Forall TagScore_current edited.
Proof.
  cbv zeta. split; [reflexivity |]. split; [reflexivity |].
  split; [reflexivity |].
  intros H. inversion H as [| r l Hr _]; subst.
  unfold TagScore_current in Hr. vm_compute in Hr. discriminate Hr.
Qed.

(** ** Filters *)

Lemma isin_spec (v : option string) (values : list string) :
  isin v values = true <-> exists x, v = Some x /\ In x values.
Proof.
  destruct v as [x |]; cbn [isin].
  - rewrite existsb_exists. split.
    + intros (y & Hy & E). apply String.eqb_eq in E. subst y. eauto.
    + intros (y & E & Hy). injection E as <-.
      exists x. split; [assumption | apply String.eqb_refl].
  - split; [discriminate | intros (x & E & _); discriminate].
Qed.

Lemma allowsb_spec (filters : list (string * list string)) (r : Resource) :
  Spec.allowsb filters r = true <-> Spec.allows filters r.
Proof.
  unfold Spec.allowsb, Spec.allows. rewrite forallb_forall. split.
  - intros H field allowed Hin Hne.
    specialize (H (field, allowed) Hin). cbn [fst snd] in H.
    destruct allowed as [| a allowed]; [contradiction |].
    now apply isin_spec.
  - intros H [field allowed] Hin. cbn [fst snd].
    destruct allowed as [| a allowed]; [reflexivity |].
    apply isin_spec, H; [assumption | discriminate].
Qed.

Lemma filter_twice {A : Type} (p q : A -> bool) (l : list A) :
  filter q (filter p l) = filter (fun x => p x && q x) l.
Proof.
  induction l as [| x l IH]; cbn [filter]; [reflexivity |].
  destruct (p x); cbn [filter andb]; [| assumption].
  destruct (q x); now rewrite IH.
Qed.

Lemma filter_all {A : Type} (l : list A) : filter (fun _ => true) l = l.
Proof.
  induction l as [| x l IH]; cbn [filter]; [reflexivity | now rewrite IH].
Qed.

(** One widget's selection as a test on a cell: no selection, no test. *)
Lemma filter_step (values : list string) (cell : Resource -> option string)
  (t : DataFrame) :
  (if truthy values then filter (fun r => isin (cell r) values) t else t)
  = filter (fun r => match values with
                     | [] => true
                     | _ :: _ => isin (cell r) values
                     end) t.
Proof.
  destruct values; cbn [truthy]; [now rewrite filter_all | reflexivity].
Qed.

Lemma filtered_df_filter (df : DataFrame)
  (service_filter region_filter dept_filter : list string) :
  filtered_df df service_filter region_filter dept_filter
  = Spec.applyFilters df [("Service", service_filter);
                          ("Region", region_filter);
                          ("Department", dept_filter)].
Proof.
  unfold filtered_df, Spec.applyFilters.
  rewrite (filter_step service_filter Service),
          (filter_step region_filter Region),
          (filter_step dept_filter Department).
  rewrite !filter_twice. apply filter_ext. intros r.
  unfold Spec.allowsb. cbn [forallb fst snd].
  unfold column. cbn [String.eqb Ascii.eqb Bool.eqb].
  now rewrite andb_true_r, andb_assoc.
Qed.

(** C4: the filtered table is the dataset restricted, in order, to the rows
    that every non-empty selection allows (Service, Region and Department
    together); an empty selection, like a field that is not in the mapping,
    allows every row, and with all selections empty the dataset comes back
    unchanged. *)
Theorem filtered_df_applyFilters (df : DataFrame)
  (service_filter region_filter dept_filter : list string) :
  let filters := [("Service", service_filter);
                  ("Region", region_filter);
                  ("Department", dept_filter)] in
  filtered_df df service_filter region_filter dept_filter
    = Spec.applyFilters df filters /\
  (forall r : Resource,
      In r (filtered_df df service_filter region_filter dept_filter)
      <-> In r df /\ Spec.allows filters r) /\
  filtered_df df service_filter [] []
    = Spec.applyFilters df [("Service", service_filter)] /\
  filtered_df df [] [] [] = df /\
  Spec.applyFilters df [] = df.
Proof.
  intros filters. subst filters.
  split; [| split; [| split; [| split]]].
  - apply filtered_df_filter.
  - intros r. rewrite filtered_df_filter. unfold Spec.applyFilters.
    rewrite filter_In, allowsb_spec. tauto.
  - rewrite filtered_df_filter. unfold Spec.applyFilters.
    apply filter_ext. intros r. unfold Spec.allowsb. cbn [forallb fst snd].
    now rewrite !andb_true_r.
  - reflexivity.
  - unfold Spec.applyFilters. apply filter_all.
Qed.

(** ** Group-by sums *)

Lemma MonthlyCostUSD_sum_cons (r : Resource) (df : DataFrame) :
  MonthlyCostUSD_sum (r :: df)
  == cost_or_0 (MonthlyCostUSD r) + MonthlyCostUSD_sum df.
Proof.
  unfold MonthlyCostUSD_sum at 1. cbn [fold_right].
  fold (MonthlyCostUSD_sum df).
  destruct (MonthlyCostUSD r); cbn [cost_or_0]; ring.
Qed.

Section GroupByFacts.

Context {K : Type}.
Variable compare : K -> K -> comparison.
Variable label : Resource -> option K.

Lemma Series_sum_cons (k : K) (s : Q) (rest : Series K) :
  Series_sum ((k, s) :: rest) = s + Series_sum rest.
Proof. reflexivity. Qed.

Lemma Series_sum_add_to_group (k : K) (c : option Q) (groups : Series K) :
  Series_sum (add_to_group compare k c groups)
  == Series_sum groups + cost_or_0 c.
Proof.
  induction groups as [| [k' s] rest IH]; cbn [add_to_group].
  - rewrite Series_sum_cons. destruct c; cbn [cost_or_0]; ring.
  - destruct (compare k k'); rewrite !Series_sum_cons.
    + destruct c; cbn [cost_or_0]; ring.
    + destruct c; cbn [cost_or_0]; ring.
    + rewrite IH. ring.
Qed.

Lemma Series_sum_fold (df : DataFrame) (groups : Series K) :
  Series_sum
    (fold_left (fun groups r =>
                  match label r with
                  | Some k => add_to_group compare k (MonthlyCostUSD r) groups
                  | None => groups
                  end) df groups)
  == Series_sum groups
     + MonthlyCostUSD_sum (filter (fun r => notnull (label r)) df).
Proof.
  revert groups.
  induction df as [| r df IH]; intros groups; cbn [fold_left filter].
  - change (MonthlyCostUSD_sum []) with 0. ring.
  - rewrite IH. destruct (label r) as [k |]; cbn [notnull].
    + rewrite Series_sum_add_to_group, MonthlyCostUSD_sum_cons. ring.
    + reflexivity.
Qed.

Lemma groupby_sum_no_label (df : DataFrame) :
  Forall (fun r => label r = None) df -> groupby_sum compare label df = [].
Proof.
  unfold groupby_sum. generalize (@nil (K * Q)).
  induction df as [| r df IH]; intros groups H; cbn [fold_left].
  - reflexivity.
  - inversion H as [| ? ? Hr Hdf]; subst. rewrite Hr. now apply IH.
Qed.

Lemma filter_notnull_all (df : DataFrame) :
  Forall (fun r => label r <> None) df ->
  filter (fun r => notnull (label r)) df = df.
Proof.
  induction 1 as [| r df Hr _ IH]; cbn [filter]; [reflexivity |].
  destruct (label r); [cbn; now rewrite IH | contradiction].
Qed.

End GroupByFacts.

(** C6, as amended: for every grouping key, the group sums add up to the
    sum of MonthlyCostUSD over the rows whose key is not null; rows with a
    null key value belong to no group.  The total of the dataset is reached
    when no row has a null key. *)
Theorem group_sums_cover_labelled_rows {K : Type}
  (compare : K -> K -> comparison) (label : Resource -> option K)
  (df : DataFrame) :
  Series_sum (groupby_sum compare label df)
    == MonthlyCostUSD_sum (filter (fun r => notnull (label r)) df) /\
  (Forall (fun r => label r <> None) df ->
   Series_sum (groupby_sum compare label df) == MonthlyCostUSD_sum df).
Proof.
  assert (E : Series_sum (groupby_sum compare label df)
              == MonthlyCostUSD_sum (filter (fun r => notnull (label r)) df)).
  { unfold groupby_sum. rewrite Series_sum_fold.
    change (Series_sum []) with 0. ring. }
  split; [exact E |].
  intros H. rewrite E. now rewrite filter_notnull_all.
Qed.

(** C6, as stated, fails when a key value is null: of two resources costing
    40 and 10, the second has no project; the project sums add up to 40,
    the dataset to 50. *)
Lemma project_cost_misses_null_Project :
  Series_sum (project_cost D_null_Project) == 40 /\
  MonthlyCostUSD_sum D_null_Project == 50 /\
  ~ Series_sum (project_cost D_null_Project)
    == MonthlyCostUSD_sum D_null_Project.
Proof.
  repeat split; try reflexivity.
  vm_compute. discriminate.
Qed.

(** ** Entities of largest cost *)

Lemma most_untagged_dept_returns (df : DataFrame) :
  exists shown, most_untagged_dept df = Ok shown.
Proof.
  unfold most_untagged_dept.
  destruct (untagged_by_dept df) as [| kv rest]; cbn.
  - eexists. reflexivity.
  - eexists. reflexivity.
Qed.

Lemma most_untagged_dept_none (df : DataFrame) :
  where_Tagged "No" df = [] ->
  most_untagged_dept df = Ok (st_info "No untagged resources found").
Proof.
  intros H. unfold most_untagged_dept, untagged_by_dept. now rewrite H.
Qed.

(** C5, on the code: the project query raises when no row carries a
    project, the empty dataset included; it has no test like the one that
    guards the department query. *)
Theorem highest_cost_project_raises (df : DataFrame) :
  Forall (fun r => column "Project" r = None) df ->
  highest_cost_project df
  = Raise (ValueError "attempt to get argmax of an empty sequence").
Proof.
  intros H. unfold highest_cost_project, project_cost.
  now rewrite groupby_sum_no_label.
Qed.

Lemma highest_cost_project_raises_witness :
  highest_cost_project []
  = Raise (ValueError "attempt to get argmax of an empty sequence") /\
  highest_cost_project [bare "A"]
  = Raise (ValueError "attempt to get argmax of an empty sequence").
Proof.
  split.
  - apply (highest_cost_project_raises []). constructor.
  - apply (highest_cost_project_raises [bare "A"]).
    constructor; [reflexivity | constructor].
Defined.

(** ** Counts per value *)

Lemma cell_eq_spec (a b : option string) : cell_eq a b = true <-> a = b.
Proof.
  destruct a as [x |], b as [y |]; cbn [cell_eq];
    try (split; [discriminate | intros E; discriminate E]);
    [| tauto].
  rewrite String.eqb_eq. split; [now intros -> | now intros [= ->]].
Qed.

Lemma cell_eq_trans_l (v a b : option string) :
  cell_eq a b = true -> cell_eq v a = cell_eq v b.
Proof. intros H. apply cell_eq_spec in H. now subst. Qed.

Lemma counts_get_bump (v x : option string)
  (counts : list (option string * Z)) :
  counts_get v (bump x counts)
  = if cell_eq v x then add_count (counts_get v counts) 1
    else counts_get v counts.
Proof.
  induction counts as [| [k n] rest IH]; cbn [bump counts_get].
  - destruct (cell_eq v x); reflexivity.
  - destruct (cell_eq x k) eqn:Exk; cbn [counts_get].
    + rewrite (cell_eq_trans_l v x k Exk).
      destruct (cell_eq v k); reflexivity.
    + destruct (cell_eq v k) eqn:Evk; [| exact IH].
      destruct (cell_eq v x) eqn:Evx; [| reflexivity].
      apply cell_eq_spec in Evk, Evx. subst.
      rewrite (proj2 (cell_eq_spec k k) eq_refl) in Exk. discriminate.
Qed.

Lemma add_count_add (entry : option Z) (n : Z) :
  (0 <= n)%Z -> add_count (add_count entry 1) n = add_count entry (1 + n).
Proof.
  intros Hn. destruct entry as [m |]; cbn [add_count].
  - f_equal. lia.
  - change (1 =? 0)%Z with false. cbv iota. cbn [add_count].
    destruct (Z.eqb_spec (1 + n) 0) as [E | _]; [lia | reflexivity].
Qed.

Lemma add_count_0 (entry : option Z) : add_count entry 0 = entry.
Proof.
  destruct entry; cbn [add_count]; [f_equal; lia | reflexivity].
Qed.

Lemma counts_get_fold (dropna : bool) (v : option string)
  (s : list (option string)) (counts : list (option string * Z)) :
  counts_get v
    (fold_left (fun counts x =>
                  if dropna && isnull x then counts else bump x counts)
               s counts)
  = add_count (counts_get v counts)
              (Z.of_nat (List.length (counted dropna v s))).
Proof.
  revert counts. unfold counted.
  induction s as [| x s IH]; intros counts; cbn [fold_left filter].
  - cbn. now rewrite add_count_0.
  - rewrite IH. destruct (dropna && isnull x); cbn [negb].
    + now rewrite andb_false_r.
    + rewrite andb_true_r, counts_get_bump.
      destruct (cell_eq v x); [| reflexivity].
      rewrite add_count_add by lia. cbn [List.length]. f_equal. lia.
Qed.

Lemma counts_get_value_counts (dropna : bool) (v : option string)
  (s : list (option string)) :
  counts_get v (value_counts dropna s)
  = add_count None (Z.of_nat (List.length (counted dropna v s))).
Proof. unfold value_counts. now rewrite counts_get_fold. Qed.

Lemma counted_null_dropped (s : list (option string)) :
  counted true None s = [].
Proof.
  unfold counted. induction s as [| [x |] s IH]; cbn; assumption || reflexivity.
Qed.

Lemma counted_Tagged (x : string) (df : DataFrame) :
  Z.of_nat (List.length (counted true (Some x) (map Tagged df)))
  = Spec.groupCount Tagged df (Some x).
Proof.
  unfold counted, Spec.groupCount. f_equal.
  assert (E : forall v : option string,
             cell_eq (Some x) v && negb (true && isnull v)
             = cell_eq v (Some x)).
  { intros [y |]; cbn; [| reflexivity].
    rewrite andb_true_r. apply String.eqb_sym. }
  rewrite (filter_ext _ _ E).
  induction df as [| r df IH]; cbn [map filter]; [reflexivity |].
  destruct (cell_eq (Tagged r) (Some x)); cbn [List.length]; now rewrite IH.
Qed.

(** C8, as amended: [tagged_counts] maps each distinct non-null value of
    the key that is present to its number of rows, and has no entry for a
    value without rows; rows whose key is null are left out, so there is
    never an entry for the missing category. *)
Theorem tagged_counts_of_present_values (df : DataFrame) :
  (forall x : string,
      counts_get (Some x) (tagged_counts df)
      = if (Spec.groupCount Tagged df (Some x) =? 0)%Z then None
        else Some (Spec.groupCount Tagged df (Some x))) /\
  counts_get None (tagged_counts df) = None.
Proof.
  unfold tagged_counts. split.
  - intros x. now rewrite counts_get_value_counts, counted_Tagged.
  - now rewrite counts_get_value_counts, counted_null_dropped.
Qed.

(** C8, as stated, fails when a key is missing: of two resources, one has
    an empty [Tagged] cell; the counts hold one entry, for "Yes". *)
Lemma tagged_counts_without_null_category :
  Spec.groupCount Tagged D_null_Tagged None = 1%Z /\
  tagged_counts D_null_Tagged = [(Some "Yes", 1%Z)] /\
  counts_get None (tagged_counts D_null_Tagged) = None.
Proof. repeat split. Qed.

(** ** Lowest tag completeness *)

Lemma key_leb_spec (a b : option Z) : key_leb a b = true <-> key_le a b.
Proof.
  destruct a as [x |], b as [y |]; cbn [key_leb key_le];
    try tauto; [apply Z.leb_le | split; [discriminate | contradiction]].
Qed.

Lemma key_le_total (a b : option Z) : key_leb a b = false -> key_le b a.
Proof.
  destruct a as [x |], b as [y |]; cbn [key_leb key_le];
    try discriminate; try tauto.
  rewrite Z.leb_gt. lia.
Qed.

Lemma key_le_trans (a b c : option Z) :
  key_le a b -> key_le b c -> key_le a c.
Proof.
  destruct a, b, c; cbn [key_le]; try tauto. lia.
Qed.

Lemma key_le_antisym (a b : option Z) : key_le a b -> key_le b a -> a = b.
Proof.
  destruct a, b; cbn [key_le]; try tauto.
  intros. f_equal. lia.
Qed.

Lemma key_le_refl (a : option Z) : key_le a a.
Proof. destruct a; cbn [key_le]; [lia | trivial]. Qed.

Lemma insert_Permutation (r : Resource) (sorted : DataFrame) :
  Permutation (r :: sorted) (Spec.insert r sorted).
Proof.
  induction sorted as [| x rest IH]; cbn [Spec.insert]; [reflexivity |].
  destruct (key_leb (TagScore r) (TagScore x)); [reflexivity |].
  rewrite perm_swap. now apply perm_skip.
Qed.

Lemma insert_sorted (r : Resource) (sorted : DataFrame) :
  StronglySorted by_TagScore sorted ->
  StronglySorted by_TagScore (Spec.insert r sorted).
Proof.
  induction 1 as [| x rest Hrest IH Hx]; cbn [Spec.insert].
  - repeat constructor.
  - destruct (key_leb (TagScore r) (TagScore x)) eqn:E.
    + apply key_leb_spec in E. constructor; [now constructor |].
      constructor; [exact E |].
      eapply Forall_impl; [| exact Hx].
      intros y Hy. eapply key_le_trans; eassumption.
    + apply key_le_total in E. constructor; [exact IH |].
      apply (Permutation_Forall (insert_Permutation r rest)).
      now constructor.
Qed.

Lemma stable_sort_Permutation (D : DataFrame) :
  Permutation D (Spec.stable_sort D).
Proof.
  induction D as [| r D IH]; cbn; [reflexivity |].
  rewrite <- insert_Permutation. now apply perm_skip.
Qed.

Lemma stable_sort_sorted (D : DataFrame) :
  StronglySorted by_TagScore (Spec.stable_sort D).
Proof.
  induction D as [| r D IH]; cbn; [constructor | now apply insert_sorted].
Qed.

(** The stable order is one of the orders [sort_values] may return: the
    call always has a result. *)
Lemma sort_values_stable_sort (df : DataFrame) :
  sort_values_TagScore df (Spec.stable_sort df).
Proof.
  split; [apply stable_sort_Permutation | apply stable_sort_sorted].
Qed.

Lemma sorted_map_TagScore (l : DataFrame) :
  StronglySorted by_TagScore l -> StronglySorted key_le (map TagScore l).
Proof.
  induction 1 as [| x rest _ IH Hx]; cbn [map]; constructor;
    [exact IH | now apply Forall_map].
Qed.

(** Two ascending arrangements of the same keys are the same list. *)
Lemma sorted_keys_unique (l1 l2 : list (option Z)) :
  StronglySorted key_le l1 -> StronglySorted key_le l2 ->
  Permutation l1 l2 -> l1 = l2.
Proof.
  revert l2. induction l1 as [| a l1 IH]; intros l2 S1 S2 P.
  - symmetry. now apply Permutation_nil.
  - destruct l2 as [| b l2].
    + symmetry in P. apply Permutation_nil in P. discriminate.
    + inversion S1 as [| ? ? S1' Ha]; inversion S2 as [| ? ? S2' Hb]; subst.
      assert (Hab : key_le a b).
      { assert (Hin : In b (a :: l1))
          by (apply (Permutation_in b (Permutation_sym P)); now left).
        destruct Hin as [E | Hin].
        - rewrite E. apply key_le_refl.
        - exact (proj1 (Forall_forall _ _) Ha b Hin). }
      assert (Hba : key_le b a).
      { assert (Hin : In a (b :: l2))
          by (apply (Permutation_in a P); now left).
        destruct Hin as [E | Hin].
        - rewrite E. apply key_le_refl.
        - exact (proj1 (Forall_forall _ _) Hb a Hin). }
      assert (E : a = b) by now apply key_le_antisym.
      subst b. f_equal. apply IH; try assumption.
      now apply Permutation_cons_inv with a.
Qed.

Lemma sort_values_keys (df sorted : DataFrame) :
  sort_values_TagScore df sorted ->
  map TagScore sorted = map TagScore (Spec.stable_sort df).
Proof.
  intros [P S]. apply sorted_keys_unique.
  - now apply sorted_map_TagScore.
  - apply sorted_map_TagScore, stable_sort_sorted.
  - apply Permutation_map. rewrite <- P. apply stable_sort_Permutation.
Qed.

Lemma lowest_compliance_stable (df : DataFrame) :
  lowest_compliance df
    (map lowest_compliance_columns
         (Spec.lowest_compliance 5 (with_TagScore df))).
Proof.
  exists (Spec.stable_sort (with_TagScore df)). split.
  - apply sort_values_stable_sort.
  - unfold Spec.lowest_compliance. symmetry. apply firstn_map.
Qed.

Lemma with_TagScore_nonneg (df : DataFrame) (r : Resource) :
  In r (with_TagScore df) -> exists m, TagScore r = Some m /\ (0 <= m)%Z.
Proof.
  intros Hr.
  pose proof (proj1 (Forall_forall _ _) (with_TagScore_current df) r Hr) as E.
  exists (Spec.nonnull_tag_fields r). split; [exact E |].
  apply nonnull_tag_fields_range.
Qed.

(** C7, as amended: the ranking is the first 5 rows of the scored dataset
    in some ascending order of TagScore.  Its sequence of scores is the one
    of the stable ascending sort truncated to 5, its rows are rows of the
    dataset, and it starts with a resource of score 0 when there is one;
    which of several resources of equal score come first is not fixed. *)
Theorem lowest_compliance_ascending (df : DataFrame)
  (shown : list (option string * option string * option string
                 * option Z * option Q)) :
  lowest_compliance df shown ->
  map shown_TagScore shown
    = map TagScore (Spec.lowest_compliance 5 (with_TagScore df)) /\
  List.length shown = Nat.min 5 (List.length df) /\
  (forall row, In row shown ->
     exists r, In r (with_TagScore df) /\ row = lowest_compliance_columns r) /\
  ((exists r, In r df /\ Spec.nonnull_tag_fields r = 0%Z) ->
   exists row rest, shown = row :: rest /\ shown_TagScore row = Some 0%Z).
Proof.
  intros (sorted & Hsort & ->).
  pose proof Hsort as [P S].
  split; [| split; [| split]].
  - unfold Spec.lowest_compliance.
    rewrite firstn_map, map_map.
    change (fun x => shown_TagScore (lowest_compliance_columns x))
      with TagScore.
    rewrite <- !firstn_map. now rewrite (sort_values_keys _ _ Hsort).
  - rewrite length_firstn, length_map, <- (Permutation_length P).
    unfold with_TagScore. now rewrite length_map.
  - intros row Hrow.
    assert (Hin : In row (map lowest_compliance_columns sorted)).
    { rewrite <- (firstn_skipn 5 (map lowest_compliance_columns sorted)).
      apply in_or_app. now left. }
    apply in_map_iff in Hin. destruct Hin as (r & <- & Hr).
    exists r. split; [| reflexivity].
    exact (Permutation_in r (Permutation_sym P) Hr).
  - intros (r & Hr & Hzero).
    set (r' := set_TagScore (Some (notnull_sum tag_fields r)) r).
    assert (Hr' : In r' sorted).
    { apply (Permutation_in r' P). unfold with_TagScore.
      apply in_map_iff. exists r. now split. }
    assert (Er' : TagScore r' = Some 0%Z).
    { subst r'. unfold set_TagScore. cbn [TagScore].
      now rewrite notnull_sum_tag_fields, Hzero. }
    destruct sorted as [| s rest]; [contradiction |].
    exists (lowest_compliance_columns s).
    exists (firstn 4 (map lowest_compliance_columns rest)).
    split; [reflexivity |].
    change (shown_TagScore (lowest_compliance_columns s)) with (TagScore s).
    destruct (with_TagScore_nonneg df s) as (m & Es & Hm).
    { apply (Permutation_in s (Permutation_sym P)). now left. }
    destruct Hr' as [E | Hrest]; [now rewrite E |].
    inversion S as [| ? ? _ Hs]; subst.
    pose proof (proj1 (Forall_forall _ _) Hs r' Hrest) as Hle.
    unfold by_TagScore in Hle. rewrite Es, Er' in Hle. cbn in Hle.
    rewrite Es. f_equal. lia.
Qed.

Lemma lowest_compliance_ascending_witness :
  map shown_TagScore
      (map lowest_compliance_columns
           (Spec.lowest_compliance 5 (with_TagScore D_ranking)))
  = map TagScore (Spec.lowest_compliance 5 (with_TagScore D_ranking)).
Proof.
  exact (proj1 (lowest_compliance_ascending D_ranking _
                  (lowest_compliance_stable D_ranking))).
Defined.

(** C7, as stated, fails without a stable sort: of four resources scoring
    2, 2, 1, 1 in table order A, B, C, D, the listing D, C, B, A is
    ascending in TagScore, and it is neither the stable order C, D, A, B
    nor does it start with the earliest resource of lowest score. *)
Lemma lowest_compliance_not_stable :
  let shown :=
    firstn 5 (map lowest_compliance_columns
                  (with_TagScore D_ranking_reversed)) in
  lowest_compliance D_ranking shown /\
  map fst (map fst (map fst (map fst shown)))
    = [Some "D"; Some "C"; Some "B"; Some "A"] /\
  map shown_TagScore shown = [Some 1%Z; Some 1%Z; Some 2%Z; Some 2%Z] /\
  map ResourceID (Spec.lowest_compliance 5 (with_TagScore D_ranking))
    = [Some "C"; Some "D"; Some "A"; Some "B"] /\
  shown <> map lowest_compliance_columns
               (Spec.lowest_compliance 5 (with_TagScore D_ranking)).
Proof.
  cbv zeta. split; [| split; [| split; [| split]]].
  - exists (with_TagScore D_ranking_reversed). split; [| reflexivity].
    split.
    + unfold with_TagScore, D_ranking_reversed.
      apply Permutation_map, Permutation_rev.
    + repeat (constructor;
              [| repeat (constructor;
                         [unfold by_TagScore; cbn; lia |]);
                 constructor]).
      constructor.
  - reflexivity.
  - reflexivity.
  - reflexivity.
  - intros E.
    apply (f_equal (map (fun row => fst (fst (fst (fst row)))))) in E.
    vm_compute in E. discriminate E.
Qed.

(** ** The specification's scenarios, evaluated *)

Example D4_costs :
  total_cost D4 == 200 /\ untagged_cost D4 == 80 /\
  percent_untagged_cost D4 == 40 /\ percent_untagged D4 == 50.
Proof. repeat split. Qed.

Example D4_most_untagged_dept :
  most_untagged_dept D4 = Ok (st_write "Eng" (Some 50)).
Proof. reflexivity. Qed.

Example D4_untagged_df_scores :
  map TagScore (untagged_df D4) = [Some 1%Z; Some 1%Z].
Proof. reflexivity. Qed.

Example D4_filter_Ops :
  map ResourceID (filtered_df D4 [] [] ["Ops"]) = [Some "r3"; Some "r4"].
Proof. reflexivity. Qed.

Example D4_cost_by_tag :
  cost_by_tag D4 = [("No", 80); ("Yes", 120)].
Proof. reflexivity. Qed.

Example D4_nothing_left_untagged :
  Change D4 [] = (-2)%Z /\
  Cost_Improvement D4 [] == 80 /\
  Pct_Point_Improvement D4 [] == 40.
Proof. repeat split. Qed.

(** * Further properties of the script *)

(** ** Counts and costs by tagging status (lines 36-40, 62-64, 73-82) *)

Lemma count_Tagged_cons (s : string) (r : Resource) (df : DataFrame) :
  count_Tagged s (r :: df)
  = ((if cell_eqb (Tagged r) s then 1 else 0) + count_Tagged s df)%Z.
Proof.
  unfold count_Tagged. cbn [fold_right].
  destruct (cell_eqb (Tagged r) s); lia.
Qed.

Lemma count_Tagged_nonneg (s : string) (df : DataFrame) :
  (0 <= count_Tagged s df)%Z.
Proof. rewrite count_Tagged_length. lia. Qed.

Lemma Yes_or_No_cells (r : Resource) :
  Yes_or_No r <->
  ((if cell_eqb (Tagged r) "Yes" then 1 else 0)
   + (if cell_eqb (Tagged r) "No" then 1 else 0) = 1)%Z.
Proof.
  unfold Yes_or_No. destruct (Tagged r) as [x |]; cbn [cell_eqb].
  - destruct (String.eqb_spec x "Yes") as [-> | Hy].
    + cbn. split; [lia | now left].
    + destruct (String.eqb_spec x "No") as [-> | Hn].
      * split; [lia | now right].
      * split; [| lia]. intros [[= E] | [= E]]; contradiction.
  - split; [intros [E | E]; discriminate | lia].
Qed.

Lemma Yes_No_cells_le (r : Resource) :
  ((if cell_eqb (Tagged r) "Yes" then 1 else 0)
   + (if cell_eqb (Tagged r) "No" then 1 else 0) <= 1)%Z.
Proof.
  destruct (Tagged r) as [x |]; cbn [cell_eqb]; [| lia].
  destruct (String.eqb_spec x "Yes") as [-> | Hy]; [cbn; lia |].
  destruct (x =? "No"); lia.
Qed.

(** The untagged resources are counted twice, as the [True] entries of a
    mask (line 39) and as the rows of the selection (line 62), with the
    same result; tagged and untagged resources together are all resources
    exactly when every [Tagged] cell is "Yes" or "No". *)
Theorem tagged_untagged_counts (df : DataFrame) :
  untagged df = untagged_count df /\
  (tagged_count df + untagged_count df <= total df)%Z /\
  ((tagged_count df + untagged_count df = total df)%Z
   <-> Forall Yes_or_No df).
Proof.
  split; [unfold untagged, untagged_count, len;
          now rewrite count_Tagged_length |].
  unfold tagged_count, untagged_count, total, len.
  induction df as [| r df [IHle IHeq]].
  - cbn. split; [lia | split; [constructor | reflexivity]].
  - rewrite !count_Tagged_cons. cbn [List.length].
    rewrite Nat2Z.inj_succ.
    pose proof (Yes_No_cells_le r) as Hr.
    pose proof (Yes_or_No_cells r) as Hyn.
    split; [lia |]. split.
    + intros E. constructor; [apply Hyn | apply IHeq]; lia.
    + intros H. inversion H as [| ? ? Hr' Hdf]; subst.
      apply Hyn in Hr'. apply IHeq in Hdf. lia.
Qed.

Lemma where_Tagged_cons (s : string) (r : Resource) (df : DataFrame) :
  where_Tagged s (r :: df)
  = if cell_eqb (Tagged r) s then r :: where_Tagged s df
    else where_Tagged s df.
Proof. reflexivity. Qed.

(** The total cost splits into the tagged cost, the untagged cost and the
    cost of the resources whose [Tagged] cell is neither "Yes" nor "No". *)
Theorem costs_by_tagging_status (df : DataFrame) :
  tagged_cost df + untagged_cost df
  + MonthlyCostUSD_sum (filter neither_Yes_nor_No df)
  == total_cost df.
Proof.
  unfold tagged_cost, untagged_cost, total_cost.
  induction df as [| r df IH]; [reflexivity |].
  rewrite !where_Tagged_cons. cbn [filter].
  rewrite (MonthlyCostUSD_sum_cons r df), <- IH.
  unfold neither_Yes_nor_No at 1.
  destruct (Tagged r) as [x |]; cbn [cell_eqb].
  - destruct (String.eqb_spec x "Yes") as [-> | Hy].
    + cbn [String.eqb Ascii.eqb Bool.eqb negb andb].
      rewrite MonthlyCostUSD_sum_cons. ring.
    + destruct (x =? "No"); cbn [negb andb];
        rewrite MonthlyCostUSD_sum_cons; ring.
  - cbn [negb andb]. rewrite MonthlyCostUSD_sum_cons. ring.
Qed.

Lemma percent_if_positive_bounds (n d : Q) :
  0 <= n <= d -> 0 <= percent_if_positive n d <= 100.
Proof.
  intros [Hn Hd]. destruct (Qlt_le_dec 0 d) as [Hpos | Hle].
  - rewrite percent_if_positive_pos by assumption.
    assert (H0 : 0 <= n / d).
    { apply Qle_shift_div_l; [assumption | lra]. }
    assert (H1 : n / d <= 1).
    { apply Qle_shift_div_r; [assumption | lra]. }
    lra.
  - rewrite percent_if_positive_nonpos by assumption. lra.
Qed.

Lemma untagged_bounds (df : DataFrame) : (0 <= untagged df <= total df)%Z.
Proof.
  unfold untagged, total, len, where_Tagged.
  pose proof (filter_length_le (fun r => cell_eqb (Tagged r) "No") df). lia.
Qed.

(** The share of untagged resources (line 64) is always between 0 and
    100, and it is 0 exactly when no resource is untagged. *)
Theorem percent_untagged_between_0_and_100 (df : DataFrame) :
  0 <= percent_untagged df <= 100 /\
  (percent_untagged df == 0 <-> untagged df = 0%Z).
Proof.
  pose proof (untagged_bounds df) as [Hu Ht].
  rewrite percent_untagged_unfold. split.
  - apply percent_if_positive_bounds. split.
    + change 0 with (inject_Z 0). now rewrite <- Zle_Qle.
    + now rewrite <- Zle_Qle.
  - destruct (Z.eq_dec (untagged df) 0) as [E | Hne].
    + split; [intros _; exact E | intros _].
      rewrite E. destruct (Qlt_le_dec 0 (inject_Z (total df))) as [Hp | Hn].
      * rewrite percent_if_positive_pos by assumption.
        unfold Qdiv. change (inject_Z 0) with 0. ring.
      * now rewrite percent_if_positive_nonpos.
    + split; [| intros E; contradiction].
      intros Hzero. exfalso.
      assert (Hpos : 0 < inject_Z (total df)).
      { change 0 with (inject_Z 0). rewrite <- Zlt_Qlt. lia. }
      rewrite percent_if_positive_pos in Hzero by assumption.
      assert (Hq : 0 < inject_Z (untagged df) / inject_Z (total df)).
      { apply Qlt_shift_div_l; [assumption |].
        rewrite Qmult_0_l. change 0 with (inject_Z 0).
        rewrite <- Zlt_Qlt. lia. }
      lra.
Qed.

(** ** What an editing session changes (lines 135, 211, 242-264) *)

Lemma metrics_read_tagging_and_cost (s : string) (a b : DataFrame) :
  map tagging_and_cost a = map tagging_and_cost b ->
  count_Tagged s a = count_Tagged s b /\
  MonthlyCostUSD_sum (where_Tagged s a) = MonthlyCostUSD_sum (where_Tagged s b)
  /\ MonthlyCostUSD_sum a = MonthlyCostUSD_sum b.
Proof.
  revert b. induction a as [| x a IH]; intros [| y b] E; try discriminate E.
  - repeat split.
  - cbn [map] in E. injection E as Et Ec Eab.
    destruct (IH b Eab) as (H1 & H2 & H3).
    rewrite !count_Tagged_cons, !where_Tagged_cons, Et, H1.
    split; [reflexivity |].
    unfold MonthlyCostUSD_sum in *.
    split.
    + destruct (cell_eqb (Tagged y) s); cbn [fold_right];
        [rewrite Ec, H2 |]; congruence.
    + cbn [fold_right]. rewrite Ec, H3. reflexivity.
Qed.

Lemma where_Tagged_twice (s : string) (df : DataFrame) :
  where_Tagged s (where_Tagged s df) = where_Tagged s df.
Proof.
  unfold where_Tagged. rewrite filter_twice. apply filter_ext.
  intros r. apply andb_diag.
Qed.

Lemma with_TagScore_tagging_and_cost (df : DataFrame) :
  map tagging_and_cost (with_TagScore df) = map tagging_and_cost df.
Proof.
  unfold with_TagScore. rewrite map_map. reflexivity.
Qed.

Lemma untagged_df_metrics (df : DataFrame) :
  count_Tagged "No" (untagged_df df) = count_Tagged "No" df /\
  MonthlyCostUSD_sum (where_Tagged "No" (untagged_df df))
  = MonthlyCostUSD_sum (where_Tagged "No" df) /\
  MonthlyCostUSD_sum (untagged_df df)
  = MonthlyCostUSD_sum (where_Tagged "No" df).
Proof.
  unfold untagged_df.
  destruct (metrics_read_tagging_and_cost "No" _ _
              (with_TagScore_tagging_and_cost df)) as (H1 & H2 & _).
  rewrite where_Tagged_twice, H2.
  rewrite !count_Tagged_length, where_Tagged_twice, <- !count_Tagged_length.
  now rewrite H1.
Qed.

(** An editing session that leaves the [Tagged] and [MonthlyCostUSD] cells
    as they were, whatever tags it fills in, shows no change: the untagged
    count and cost after are those before, the count change is 0 and the
    cost improvement is 0. *)
Theorem filling_in_tags_changes_no_metric (df edited : DataFrame) :
  map tagging_and_cost edited = map tagging_and_cost (untagged_df df) ->
  after_untagged_count edited = before_untagged_count df /\
  after_untagged_cost edited = before_untagged_cost df /\
  Change df edited = 0%Z /\
  Cost_Improvement df edited == 0.
Proof.
  intros E.
  destruct (metrics_read_tagging_and_cost "No" _ _ E) as (H1 & H2 & _).
  destruct (untagged_df_metrics df) as (U1 & U2 & _).
  assert (Hcount : after_untagged_count edited = before_untagged_count df)
    by (unfold after_untagged_count, before_untagged_count; congruence).
  assert (Hcost : after_untagged_cost edited = before_untagged_cost df)
    by (unfold after_untagged_cost, before_untagged_cost; congruence).
  repeat split; try assumption.
  - unfold Change. lia.
  - unfold Cost_Improvement. rewrite Hcost. ring.
Qed.

Lemma filling_in_tags_changes_no_metric_witness :
  Change D4 (editable_df (fill_Department "Finance") D4) = 0%Z.
Proof.
  apply (filling_in_tags_changes_no_metric D4). reflexivity.
Defined.

(** After such a session the share of untagged cost is 100 whenever the
    untagged cost is positive, since the edited table holds the untagged
    resources only; the percentage-point improvement shown is then the
    share before minus 100. *)
Theorem after_share_of_untagged_rows (df edited : DataFrame) :
  map tagging_and_cost edited = map tagging_and_cost (untagged_df df) ->
  0 < untagged_cost df ->
  after_untagged_pct_cost edited == 100 /\
  Pct_Point_Improvement df edited == before_untagged_pct_cost df - 100.
Proof.
  intros E Hpos.
  destruct (metrics_read_tagging_and_cost "No" _ _ E) as (_ & H2 & H3).
  destruct (untagged_df_metrics df) as (_ & U2 & U3).
  assert (Hafter : after_untagged_pct_cost edited == 100).
  { rewrite after_untagged_pct_cost_unfold. unfold after_untagged_cost.
    rewrite H2, H3, U2, U3. fold (untagged_cost df).
    rewrite percent_if_positive_pos by assumption.
    field. intros Z. rewrite Z in Hpos. exact (Qlt_irrefl 0 Hpos). }
  split; [exact Hafter |].
  unfold Pct_Point_Improvement. now rewrite Hafter.
Qed.

Lemma after_share_of_untagged_rows_witness :
  after_untagged_pct_cost (editable_df (fill_Department "Finance") D4) == 100.
Proof.
  apply (after_share_of_untagged_rows D4); reflexivity.
Defined.

(** ** Group-by: index order and group sums (lines 85, 94, 104, 111, 164,
    170, 176) *)

Lemma Ascii_compare_refl (a : Ascii.ascii) : Ascii.compare a a = Eq.
Proof. unfold Ascii.compare. apply N.compare_refl. Qed.

Lemma String_compare_refl (s : string) : String.compare s s = Eq.
Proof.
  induction s as [| a s IH]; cbn; [reflexivity |].
  now rewrite Ascii_compare_refl.
Qed.

Lemma String_compare_trans (a b c : string) :
  String.compare a b = Lt -> String.compare b c = Lt ->
  String.compare a c = Lt.
Proof.
  revert b c. induction a as [| x a IH]; intros [| y b] [| z c]; cbn;
    try discriminate; try reflexivity.
  unfold Ascii.compare.
  destruct (N.compare_spec (Ascii.N_of_ascii x) (Ascii.N_of_ascii y))
    as [Exy | Lxy | Gxy]; try discriminate.
  - rewrite Exy.
    destruct (N.compare (Ascii.N_of_ascii y) (Ascii.N_of_ascii z));
      try discriminate; [apply IH | reflexivity].
  - intros _.
    destruct (N.compare_spec (Ascii.N_of_ascii y) (Ascii.N_of_ascii z))
      as [Eyz | Lyz | Gyz]; try discriminate; intros _.
    + rewrite <- Eyz. now rewrite (proj2 (N.compare_lt_iff _ _) Lxy).
    + assert (L : (Ascii.N_of_ascii x < Ascii.N_of_ascii z)%N) by lia.
      now rewrite (proj2 (N.compare_lt_iff _ _) L).
Qed.

Lemma String_compare_order : comparison_order String.compare.
Proof.
  split.
  - intros a b. split; [apply String.compare_eq_iff |].
    intros ->. apply String_compare_refl.
  - apply String.compare_antisym.
  - apply String_compare_trans.
Qed.

Lemma compare2_order : comparison_order compare2.
Proof.
  split.
  - intros [a1 a2] [b1 b2]. unfold compare2. cbn [fst snd]. split.
    + destruct (String.compare a1 b1) eqn:E1; try discriminate.
      intros E2. apply String.compare_eq_iff in E1, E2. now subst.
    + intros [= -> ->]. now rewrite !String_compare_refl.
  - intros [a1 a2] [b1 b2]. unfold compare2. cbn [fst snd].
    rewrite (String.compare_antisym a1 b1), (String.compare_antisym a2 b2).
    destruct (String.compare b1 a1); reflexivity.
  - intros [a1 a2] [b1 b2] [c1 c2]. unfold compare2. cbn [fst snd].
    destruct (String.compare a1 b1) eqn:Eab; try discriminate.
    + apply String.compare_eq_iff in Eab. subst b1.
      destruct (String.compare a1 c1); try discriminate;
        [apply String_compare_trans | reflexivity].
    + intros _. destruct (String.compare b1 c1) eqn:Ebc; try discriminate.
      * apply String.compare_eq_iff in Ebc. subst c1. now rewrite Eab.
      * intros _. now rewrite (String_compare_trans _ _ _ Eab Ebc).
Qed.

Section GroupByOrder.

Context {K : Type}.
Variable compare : K -> K -> comparison.
Variable label : Resource -> option K.
Hypothesis order : comparison_order compare.

Lemma compare_Gt_Lt (a b : K) : compare a b = Gt -> compare b a = Lt.
Proof.
  intros H. rewrite (compare_antisym compare order b a), H. reflexivity.
Qed.

Lemma add_to_group_labels (k : K) (c : option Q) (x : K * Q)
  (groups : Series K) :
  compare (fst x) k = Lt ->
  Forall (label_lt compare x) groups ->
  Forall (label_lt compare x) (add_to_group compare k c groups).
Proof.
  intros Hx H. induction H as [| [k' s] rest Hk' Hrest IH];
    cbn [add_to_group].
  - repeat constructor. exact Hx.
  - destruct (compare k k') eqn:E.
    + constructor; [exact Hk' | exact Hrest].
    + constructor; [exact Hx |]. constructor; [exact Hk' | exact Hrest].
    + constructor; [exact Hk' | exact IH].
Qed.

Lemma add_to_group_sorted (k : K) (c : option Q) (groups : Series K) :
  StronglySorted (label_lt compare) groups ->
  StronglySorted (label_lt compare) (add_to_group compare k c groups).
Proof.
  induction 1 as [| [k' s] rest Hrest IH Hk']; cbn [add_to_group].
  - repeat constructor.
  - destruct (compare k k') eqn:E.
    + constructor; [exact Hrest |].
      eapply Forall_impl; [| exact Hk']. intros y Hy. exact Hy.
    + constructor; [now constructor |].
      constructor; [exact E |].
      eapply Forall_impl; [| exact Hk']. intros y Hy.
      unfold label_lt in *. cbn [fst] in *.
      eapply (compare_trans compare order); eassumption.
    + constructor; [exact IH |].
      apply add_to_group_labels; [| exact Hk'].
      cbn [fst]. now apply compare_Gt_Lt.
Qed.

Lemma groupby_fold_sorted (df : DataFrame) (groups : Series K) :
  StronglySorted (label_lt compare) groups ->
  StronglySorted (label_lt compare)
    (fold_left (fun groups r =>
                  match label r with
                  | Some k => add_to_group compare k (MonthlyCostUSD r) groups
                  | None => groups
                  end) df groups).
Proof.
  revert groups. induction df as [| r df IH]; intros groups H;
    cbn [fold_left]; [exact H |].
  apply IH. destruct (label r); [now apply add_to_group_sorted | exact H].
Qed.

Lemma Series_get_above (k : K) (x : K * Q) (groups : Series K) :
  compare k (fst x) = Lt ->
  Forall (label_lt compare x) groups ->
  Series_get compare k groups = None.
Proof.
  intros Hk H. induction H as [| [k' s] rest Hk' _ IH];
    cbn [Series_get]; [reflexivity |].
  unfold label_lt in Hk'. cbn [fst] in Hk'.
  now rewrite (compare_trans compare order _ _ _ Hk Hk').
Qed.

Lemma Series_get_add_to_group (k k' : K) (c : option Q)
  (groups : Series K) :
  StronglySorted (label_lt compare) groups ->
  Series_get compare k (add_to_group compare k' c groups)
  = match compare k k' with
    | Eq => Some (add_cost (Series_get compare k groups) c)
    | _ => Series_get compare k groups
    end.
Proof.
  induction 1 as [| [k'' s] rest Hrest IH Hk'']; cbn [add_to_group].
  - cbn [Series_get]. destruct (compare k k'); reflexivity.
  - destruct (compare k' k'') eqn:E.
    + apply (compare_eq compare order) in E. subst k''.
      cbn [Series_get]. destruct (compare k k'); reflexivity.
    + cbn [Series_get]. destruct (compare k k') eqn:Ek; try reflexivity.
      apply (compare_eq compare order) in Ek. subst k'.
      rewrite E. now rewrite (Series_get_above k (k'', s) rest).
    + cbn [Series_get]. rewrite IH.
      destruct (compare k k'') eqn:Ek''; try reflexivity.
      destruct (compare k k') eqn:Ek; try reflexivity.
      apply (compare_eq compare order) in Ek. subst k'. congruence.
Qed.

Lemma Series_get_fold (k : K) (df : DataFrame) (groups : Series K) :
  StronglySorted (label_lt compare) groups ->
  Series_get compare k
    (fold_left (fun groups r =>
                  match label r with
                  | Some k => add_to_group compare k (MonthlyCostUSD r) groups
                  | None => groups
                  end) df groups)
  = group_total compare label k df (Series_get compare k groups).
Proof.
  unfold group_total. revert groups.
  induction df as [| r df IH]; intros groups H; cbn [fold_left];
    [reflexivity |].
  unfold labelled at 2. destruct (label r) as [k' |].
  - rewrite IH by now apply add_to_group_sorted.
    rewrite Series_get_add_to_group by assumption.
    destruct (compare k k'); reflexivity.
  - now apply IH.
Qed.

Lemma group_total_sum (k : K) (df : DataFrame) (entry : option Q) :
  match group_total compare label k df entry with
  | Some v =>
      v == match entry with Some s => s | None => 0 end
           + MonthlyCostUSD_sum (filter (labelled compare label k) df)
      /\ (entry = None -> filter (labelled compare label k) df <> [])
  | None => entry = None /\ filter (labelled compare label k) df = []
  end.
Proof.
  unfold group_total. revert entry.
  induction df as [| r df IH]; intros entry; cbn [fold_left filter].
  - destruct entry as [s |].
    + split; [cbn; ring | discriminate].
    + split; reflexivity.
  - destruct (labelled compare label k r).
    + specialize (IH (Some (add_cost entry (MonthlyCostUSD r)))).
      destruct (fold_left _ df _) as [v |].
      * destruct IH as [IH _]. split; [| discriminate].
        rewrite IH, MonthlyCostUSD_sum_cons.
        destruct entry, (MonthlyCostUSD r); cbn [add_cost cost_or_0]; ring.
      * destruct IH as [IH _]. discriminate IH.
    + apply IH.
Qed.

End GroupByOrder.

(** Every group-by of the script is an instance (labels compared by
    [String.compare], pairs of labels by [compare2]): the index is strictly
    ascending, so no label occurs twice; a label has an entry exactly when
    some row carries it, and the entry is the sum of MonthlyCostUSD over
    those rows. *)
Theorem groupby_sum_entries {K : Type} (compare : K -> K -> comparison)
  (label : Resource -> option K) (df : DataFrame) :
  comparison_order compare ->
  StronglySorted (label_lt compare) (groupby_sum compare label df) /\
  forall k : K,
    match Series_get compare k (groupby_sum compare label df) with
    | Some v =>
        v == MonthlyCostUSD_sum (filter (labelled compare label k) df) /\
        filter (labelled compare label k) df <> []
    | None => filter (labelled compare label k) df = []
    end.
Proof.
  intros order. unfold groupby_sum. split.
  - apply groupby_fold_sorted; [exact order | constructor].
  - intros k. rewrite (Series_get_fold compare label order) by constructor.
    cbn [Series_get].
    pose proof (group_total_sum compare label k df None) as H.
    destruct (group_total compare label k df None) as [v |].
    + destruct H as [E Hne]. split; [| now apply Hne].
      rewrite E. ring.
    + now destruct H.
Qed.

Lemma groupby_sum_entries_witness :
  StronglySorted (label_lt String.compare) (cost_by_tag D4) /\
  StronglySorted (label_lt compare2) (dept_cost D4).
Proof.
  split.
  - exact (proj1 (groupby_sum_entries String.compare (column "Tagged")
                    D4 String_compare_order)).
  - exact (proj1 (groupby_sum_entries compare2
                    (label2 "Department" "Tagged") D4 compare2_order)).
Defined.

Lemma labelled_Tagged (tag : string) (df : DataFrame) :
  filter (labelled String.compare (column "Tagged") tag) df
  = where_Tagged tag df.
Proof.
  unfold where_Tagged. apply filter_ext. intros r.
  unfold labelled, column. cbn [String.eqb Ascii.eqb Bool.eqb].
  destruct (Tagged r) as [x |]; cbn [cell_eqb]; [| reflexivity].
  destruct (String.eqb_spec x tag) as [-> | Hne].
  - now rewrite String_compare_refl.
  - destruct (String.compare tag x) eqn:E; try reflexivity.
    apply String.compare_eq_iff in E. congruence.
Qed.

(** The chart of cost by tagging status (line 85) agrees with the metrics
    above it (lines 77, 81): its "No" entry is the untagged cost and its
    "Yes" entry the tagged cost, and an entry is missing exactly when no
    resource has that status. *)
Theorem cost_by_tag_entries (df : DataFrame) :
  match Series_get String.compare "No" (cost_by_tag df) with
  | Some v => v == untagged_cost df /\ where_Tagged "No" df <> []
  | None => where_Tagged "No" df = []
  end /\
  match Series_get String.compare "Yes" (cost_by_tag df) with
  | Some v => v == tagged_cost df /\ where_Tagged "Yes" df <> []
  | None => where_Tagged "Yes" df = []
  end.
Proof.
  unfold cost_by_tag, untagged_cost, tagged_cost, groupby_sum.
  split.
  - rewrite (Series_get_fold _ _ String_compare_order) by constructor.
    pose proof (group_total_sum String.compare (column "Tagged") "No" df None)
      as H.
    cbn [Series_get]. rewrite labelled_Tagged in H.
    destruct (group_total _ _ _ df None) as [v |]; [| now destruct H].
    destruct H as [E Hne]. split; [rewrite E; ring | now apply Hne].
  - rewrite (Series_get_fold _ _ String_compare_order) by constructor.
    pose proof (group_total_sum String.compare (column "Tagged") "Yes" df None)
      as H.
    cbn [Series_get]. rewrite labelled_Tagged in H.
    destruct (group_total _ _ _ df None) as [v |]; [| now destruct H].
    destruct H as [E Hne]. split; [rewrite E; ring | now apply Hne].
Qed.

(** ** The largest entry (lines 95-107) *)

Section FirstMax.

Context {K : Type}.

Lemma first_max_split (rest : Series K) (best : K * Q) :
  exists before after,
    best :: rest = (before ++ first_max best rest :: after)%list /\
    Forall (fun kv => snd kv < snd (first_max best rest)) before /\
    Forall (fun kv => snd kv <= snd (first_max best rest)) after.
Proof.
  revert best. induction rest as [| kv rest IH]; intros best;
    cbn [first_max].
  - exists [], []. repeat split; constructor.
  - destruct (Qgtb (snd kv) (snd best)) eqn:G.
    + apply Qgtb_true in G.
      destruct (IH kv) as (before & after & E & Hb & Ha).
      exists (best :: before), after. split; [cbn; now rewrite E |].
      split; [| exact Ha]. constructor; [| exact Hb].
      assert (Hkv : snd kv <= snd (first_max kv rest)).
      { assert (Hin : In kv (before ++ first_max kv rest :: after)%list)
          by (rewrite <- E; now left).
        apply in_app_or in Hin. destruct Hin as [Hin | [Hin | Hin]].
        - apply Qlt_le_weak. exact (proj1 (Forall_forall _ _) Hb kv Hin).
        - rewrite Hin. apply Qle_refl.
        - exact (proj1 (Forall_forall _ _) Ha kv Hin). }
      eapply Qlt_le_trans; eassumption.
    + apply Qgtb_false in G.
      destruct (IH best) as (before & after & E & Hb & Ha).
      destruct before as [| b before].
      * cbn [app] in E. injection E as Ebest Erest.
        exists [], (kv :: after). split; [cbn; now rewrite <- Ebest, Erest |].
        split; [constructor |]. constructor; [| exact Ha].
        now rewrite <- Ebest.
      * cbn [app] in E. injection E as Ebest Erest. subst b.
        exists (best :: kv :: before), after.
        split; [cbn [app]; do 2 f_equal; exact Erest |].
        split; [| exact Ha].
        inversion Hb as [| ? ? Hbest Hb']; subst.
        constructor; [exact Hbest |]. constructor; [| exact Hb'].
        eapply Qle_lt_trans; eassumption.
Qed.

Lemma first_max_largest (rest : Series K) (best kv : K * Q) :
  In kv (best :: rest) -> snd kv <= snd (first_max best rest).
Proof.
  destruct (first_max_split rest best) as (before & after & E & Hb & Ha).
  rewrite E. intros Hin. apply in_app_or in Hin.
  destruct Hin as [Hin | [Hin | Hin]].
  - apply Qlt_le_weak. exact (proj1 (Forall_forall _ _) Hb kv Hin).
  - rewrite Hin. apply Qle_refl.
  - exact (proj1 (Forall_forall _ _) Ha kv Hin).
Qed.

Lemma first_max_In (rest : Series K) (best : K * Q) :
  In (first_max best rest) (best :: rest).
Proof.
  destruct (first_max_split rest best) as (before & after & E & _).
  rewrite E. apply in_or_app. right. now left.
Qed.

End FirstMax.

Lemma sorted_after {A : Type} (R : A -> A -> Prop) (before after : list A)
  (x : A) :
  StronglySorted R (before ++ x :: after) -> Forall (R x) after.
Proof.
  induction before as [| b before IH]; cbn [app]; intros H;
    inversion H; subst; [assumption | now apply IH].
Qed.

Lemma untagged_by_dept_sorted (df : DataFrame) :
  StronglySorted (label_lt String.compare) (untagged_by_dept df).
Proof.
  unfold untagged_by_dept, groupby_sum.
  apply groupby_fold_sorted; [exact String_compare_order | constructor].
Qed.

(** Section 2.3 never raises.  It reports that there are no untagged
    resources exactly when no untagged resource has a department;
    otherwise it names a department of the untagged group sums whose sum
    no other department exceeds, and among departments of that same sum
    the first in alphabetical order. *)
Theorem most_untagged_dept_is_largest (df : DataFrame) :
  match most_untagged_dept df with
  | Ok (st_write d (Some v)) =>
      In (d, v) (untagged_by_dept df) /\
      forall d' v', In (d', v') (untagged_by_dept df) ->
                    v' <= v /\
                    (v' == v -> d' = d \/ String.compare d d' = Lt)
  | Ok (st_write _ None) => False
  | Ok (st_info _) => untagged_by_dept df = []
  | Raise _ => False
  end.
Proof.
  pose proof (untagged_by_dept_sorted df) as S.
  unfold most_untagged_dept.
  destruct (untagged_by_dept df) as [| kv rest]; [reflexivity |].
  cbn -[first_max].
  destruct (first_max_split rest kv) as (before & after & E & Hb & Ha).
  pose proof (first_max_In rest kv) as Hin.
  destruct (first_max kv rest) as [d v] eqn:Em. cbn [fst snd] in *.
  split; [exact Hin |].
  intros d' v' Hin'. change (In (d', v') (kv :: rest)) in Hin'. split.
  - pose proof (first_max_largest rest kv (d', v') Hin') as H.
    now rewrite Em in H.
  - intros Ev. rewrite E in Hin', S. apply in_app_or in Hin'.
    destruct Hin' as [Hin' | [Hin' | Hin']].
    + pose proof (proj1 (Forall_forall _ _) Hb _ Hin') as H.
      cbn [snd] in H. rewrite Ev in H. destruct (Qlt_irrefl _ H).
    + left. now injection Hin'.
    + right. apply sorted_after in S.
      exact (proj1 (Forall_forall _ _) S _ Hin').
Qed.

Lemma groupby_sum_nonempty {K : Type} (compare : K -> K -> comparison)
  (label : Resource -> option K) (df : DataFrame) :
  comparison_order compare ->
  Exists (fun r => label r <> None) df ->
  groupby_sum compare label df <> [].
Proof.
  intros order Hex Hnil. apply Exists_exists in Hex.
  destruct Hex as (r & Hr & Hlabel).
  destruct (label r) as [k |] eqn:Ek; [| contradiction].
  unfold groupby_sum in Hnil.
  pose proof (Series_get_fold compare label order k df [] (SSorted_nil _))
    as G.
  rewrite Hnil in G. cbn [Series_get] in G.
  pose proof (group_total_sum compare label k df None) as H.
  rewrite <- G in H. destruct H as [_ H].
  assert (Hin : In r (filter (labelled compare label k) df)).
  { apply filter_In. split; [exact Hr |].
    unfold labelled. rewrite Ek.
    now rewrite (proj2 (compare_eq compare order k k) eq_refl). }
  rewrite H in Hin. exact Hin.
Qed.

(** Section 2.4 returns as soon as one resource has a project: it names a
    project of the group sums whose sum no other project exceeds. *)
Theorem highest_cost_project_is_largest (df : DataFrame) :
  Exists (fun r => column "Project" r <> None) df ->
  exists p v,
    highest_cost_project df = Ok (st_write p (Some v)) /\
    In (p, v) (project_cost df) /\
    forall p' v', In (p', v') (project_cost df) -> v' <= v.
Proof.
  intros Hex.
  pose proof (groupby_sum_nonempty String.compare (column "Project") df
                String_compare_order Hex) as Hne.
  unfold highest_cost_project. fold (project_cost df) in Hne.
  destruct (project_cost df) as [| kv rest]; [contradiction |].
  cbn -[first_max].
  pose proof (first_max_In rest kv) as Hin.
  exists (fst (first_max kv rest)), (snd (first_max kv rest)).
  split; [reflexivity |]. split.
  - now rewrite <- surjective_pairing.
  - intros p' v' Hin'. change (In (p', v') (kv :: rest)) in Hin'.
    exact (first_max_largest rest kv (p', v') Hin').
Qed.

Lemma highest_cost_project_is_largest_witness :
  exists p v,
    highest_cost_project D_null_Project = Ok (st_write p (Some v)) /\
    In (p, v) (project_cost D_null_Project) /\
    forall p' v', In (p', v') (project_cost D_null_Project) -> v' <= v.
Proof.
  apply (highest_cost_project_is_largest D_null_Project).
  left. discriminate.
Defined.

(** ** Counts per value: totals (line 57) *)

Lemma counts_sum_bump (v : option string) (counts : list (option string * Z)) :
  counts_sum (bump v counts) = (counts_sum counts + 1)%Z.
Proof.
  unfold counts_sum.
  induction counts as [| [k n] rest IH]; cbn [bump]; [reflexivity |].
  destruct (cell_eq v k); cbn [fold_right snd] in *; lia.
Qed.

Lemma bump_keys (v k : option string) (counts : list (option string * Z)) :
  In k (map fst (bump v counts)) <-> k = v \/ In k (map fst counts).
Proof.
  induction counts as [| [k' n] rest IH]; cbn [bump].
  - cbn. intuition congruence.
  - destruct (cell_eq v k') eqn:E; cbn [map fst In].
    + apply cell_eq_spec in E. subst k'. intuition congruence.
    + rewrite IH. tauto.
Qed.

Lemma bump_NoDup (v : option string) (counts : list (option string * Z)) :
  NoDup (map fst counts) -> NoDup (map fst (bump v counts)).
Proof.
  induction counts as [| [k n] rest IH]; cbn [bump]; intros H.
  - repeat constructor. intros [].
  - inversion H as [| ? ? Hk Hrest]; subst.
    destruct (cell_eq v k) eqn:E; cbn [map fst].
    + exact H.
    + constructor; [| now apply IH].
      rewrite bump_keys. intros [-> | Hin]; [| contradiction].
      rewrite (proj2 (cell_eq_spec v v) eq_refl) in E. discriminate.
Qed.

Lemma bump_entries (P : option string * Z -> Prop) (v : option string)
  (counts : list (option string * Z)) :
  P (v, 1%Z) ->
  (forall k n, P (k, n) -> P (k, (n + 1)%Z)) ->
  Forall P counts -> Forall P (bump v counts).
Proof.
  intros P1 Pstep H. induction H as [| [k n] rest Hk Hrest IH];
    cbn [bump]; [repeat constructor; exact P1 |].
  destruct (cell_eq v k); constructor; auto.
Qed.

Lemma value_counts_fold_invariant (s : list (option string))
  (counts : list (option string * Z)) :
  NoDup (map fst counts) ->
  Forall (fun kv => fst kv <> None /\ (1 <= snd kv)%Z) counts ->
  NoDup (map fst (count_into counts s)) /\
  Forall (fun kv => fst kv <> None /\ (1 <= snd kv)%Z)
         (count_into counts s) /\
  counts_sum (count_into counts s)
  = (counts_sum counts + Z.of_nat (List.length (filter notnull s)))%Z.
Proof.
  revert counts. induction s as [| v s IH]; intros counts Hnd Hall.
  - change (count_into counts []) with counts. cbn [filter List.length].
    repeat split; try assumption. lia.
  - destruct v as [x |].
    + change (count_into counts (Some x :: s))
        with (count_into (bump (Some x) counts) s).
      destruct (IH (bump (Some x) counts)) as (H1 & H2 & H3).
      * now apply bump_NoDup.
      * apply bump_entries; [| | exact Hall]; cbn [fst snd].
        -- split; [discriminate | lia].
        -- intros k n [Hk Hn]. split; [exact Hk | lia].
      * repeat split; try assumption.
        rewrite H3, counts_sum_bump. cbn [filter notnull List.length]. lia.
    + change (count_into counts (None :: s)) with (count_into counts s).
      cbn [filter notnull]. now apply IH.
Qed.

(** The counts of line 57 hold each value of [Tagged] once, never the
    missing category, each with a count of at least 1; together they count
    the resources whose [Tagged] cell is not empty. *)
Theorem tagged_counts_total (df : DataFrame) :
  NoDup (map fst (tagged_counts df)) /\
  Forall (fun kv => fst kv <> None /\ (1 <= snd kv)%Z) (tagged_counts df) /\
  counts_sum (tagged_counts df)
  = Z.of_nat (List.length (filter (fun r => notnull (Tagged r)) df)).
Proof.
  change (tagged_counts df) with (count_into [] (map Tagged df)).
  destruct (value_counts_fold_invariant (map Tagged df) [])
    as (H1 & H2 & H3); [constructor | constructor |].
  repeat split; try assumption.
  rewrite H3. clear H1 H2 H3.
  change (counts_sum []) with 0%Z. rewrite Z.add_0_l. f_equal.
  induction df as [| r df IH]; cbn [map filter]; [reflexivity |].
  destruct (notnull (Tagged r)); cbn [List.length]; now rewrite IH.
Qed.

(** ** The recombined table (lines 227-228) *)

Lemma Permutation_three_way {A : Type} (p q n : A -> bool) (l : list A) :
  (forall x, (p x = true /\ q x = false /\ n x = false) \/
             (p x = false /\ q x = true /\ n x = false) \/
             (p x = false /\ q x = false /\ n x = true)) ->
  Permutation ((filter p l ++ filter q l) ++ filter n l) l.
Proof.
  intros H. induction l as [| x l IH]; cbn [filter]; [constructor |].
  destruct (H x) as [(-> & -> & ->) | [(-> & -> & ->) | (-> & -> & ->)]].
  - cbn [app]. now apply perm_skip.
  - rewrite <- app_assoc. cbn [app].
    rewrite <- Permutation_middle. apply perm_skip.
    now rewrite app_assoc.
  - rewrite <- Permutation_middle. now apply perm_skip.
Qed.

(** When the editor changes nothing, the recombined table is the scored
    table with the tagged resources first and the untagged ones after
    them, less the resources whose [Tagged] cell is neither "Yes" nor
    "No": those are in neither part. *)
Theorem full_remediated_drops_other_rows (df : DataFrame) :
  Permutation
    (full_remediated no_edit df
     ++ filter neither_Yes_nor_No (with_TagScore df))
    (with_TagScore df) /\
  len (full_remediated no_edit df)
  = (tagged_count df + untagged_count df)%Z.
Proof.
  split.
  - unfold full_remediated, editable_df, no_edit, tagged_df, untagged_df,
      where_Tagged.
    apply Permutation_three_way. intros r. unfold neither_Yes_nor_No.
    destruct (Tagged r) as [x |]; cbn [cell_eqb]; [| tauto].
    destruct (String.eqb_spec x "Yes") as [-> | Hy]; [cbn; tauto |].
    destruct (x =? "No"); cbn; tauto.
  - unfold full_remediated, editable_df, no_edit, tagged_df, untagged_df,
      len, tagged_count, untagged_count.
    rewrite length_app, Nat2Z.inj_add, <- !count_Tagged_length.
    unfold with_TagScore. now rewrite !count_Tagged_set_TagScore.
Qed.

(** ** Filters: composition and the department options (lines 191-200) *)

Ltac case_isin :=
  repeat match goal with
         | |- context [isin ?v ?l] => destruct (isin v l)
         end.

(** Filtering what was filtered with the same selections changes nothing;
    filtering widget by widget, in any order, gives what the three
    selections give together; and two rounds of selections may be swapped. *)
Theorem filtered_df_composes (df : DataFrame)
  (s r d s' r' d' : list string) :
  filtered_df (filtered_df df s r d) s r d = filtered_df df s r d /\
  filtered_df (filtered_df (filtered_df df s [] []) [] r []) [] [] d
    = filtered_df df s r d /\
  filtered_df (filtered_df (filtered_df df [] [] d) [] r []) s [] []
    = filtered_df df s r d /\
  filtered_df (filtered_df df s r d) s' r' d'
    = filtered_df (filtered_df df s' r' d') s r d.
Proof.
  rewrite !filtered_df_filter. unfold Spec.applyFilters.
  rewrite !filter_twice. repeat split; apply filter_ext; intros x.
  - apply andb_diag.
  - unfold Spec.allowsb. cbn [forallb fst snd].
    destruct s, r, d; case_isin; reflexivity.
  - unfold Spec.allowsb. cbn [forallb fst snd].
    destruct s, r, d; case_isin; reflexivity.
  - apply andb_comm.
Qed.

Lemma unique_values_In (cells : list (option string)) (seen : list string)
  (x : string) :
  In x (unique_values cells seen) <-> In (Some x) cells /\ ~ In x seen.
Proof.
  revert seen. induction cells as [| [y |] cells IH]; intros seen;
    cbn [unique_values].
  - cbn. tauto.
  - destruct (existsb (String.eqb y) seen) eqn:E.
    + rewrite IH. apply existsb_exists in E. destruct E as (z & Hz & E).
      apply String.eqb_eq in E. subst z. cbn [In]. split.
      * tauto.
      * intros [[[= ->] | H] Hn]; [contradiction | tauto].
    + assert (Hy : ~ In y seen).
      { intros H. apply not_true_iff_false in E. apply E.
        apply existsb_exists. exists y. split; [exact H |].
        apply String.eqb_refl. }
      cbn [In]. rewrite IH. cbn [In]. split.
      * intros [-> | [H Hn]]; [split; [now left | exact Hy] | tauto].
      * intros [[[= ->] | H] Hn]; [now left |].
        destruct (String.eqb_spec y x) as [-> | Hne]; [now left |].
        right. split; [exact H |]. intros [E' | H']; [congruence | tauto].
  - rewrite IH. cbn [In]. split; [tauto |].
    intros [[E | H] Hn]; [discriminate | tauto].
Qed.

Lemma unique_values_NoDup (cells : list (option string))
  (seen : list string) :
  NoDup (unique_values cells seen).
Proof.
  revert seen. induction cells as [| [y |] cells IH]; intros seen;
    cbn [unique_values]; [constructor | | apply IH].
  destruct (existsb (String.eqb y) seen); [apply IH |].
  constructor; [| apply IH].
  rewrite unique_values_In. cbn [In]. tauto.
Qed.

Lemma insert_ascending_Permutation (x : string) (l : list string) :
  Permutation (x :: l) (insert_ascending x l).
Proof.
  induction l as [| y l IH]; cbn [insert_ascending]; [reflexivity |].
  destruct (String.compare x y); try reflexivity.
  rewrite perm_swap. now apply perm_skip.
Qed.

Lemma sorted_Permutation (l : list string) : Permutation l (sorted l).
Proof.
  induction l as [| x l IH]; cbn; [constructor |].
  rewrite <- insert_ascending_Permutation. now apply perm_skip.
Qed.

Lemma leb_trans (a b c : string) :
  String.leb a b = true -> String.leb b c = true -> String.leb a c = true.
Proof.
  unfold String.leb.
  destruct (String.compare a b) eqn:Eab; try discriminate; intros _.
  - apply String.compare_eq_iff in Eab. now subst b.
  - destruct (String.compare b c) eqn:Ebc; try discriminate; intros _.
    + apply String.compare_eq_iff in Ebc. subst c. now rewrite Eab.
    + now rewrite (String_compare_trans _ _ _ Eab Ebc).
Qed.

Lemma insert_ascending_sorted (x : string) (l : list string) :
  StronglySorted (fun a b => String.leb a b = true) l ->
  StronglySorted (fun a b => String.leb a b = true) (insert_ascending x l).
Proof.
  induction 1 as [| y l Hl IH Hy]; cbn [insert_ascending].
  - repeat constructor.
  - assert (Hle : String.compare x y <> Gt ->
                  StronglySorted (fun a b => String.leb a b = true)
                                 (x :: y :: l)).
    { intros Hxy. assert (Lxy : String.leb x y = true)
        by (unfold String.leb; destruct (String.compare x y); congruence).
      constructor; [now constructor |]. constructor; [exact Lxy |].
      eapply Forall_impl; [| exact Hy]. intros z Hz.
      eapply leb_trans; eassumption. }
    destruct (String.compare x y) eqn:E;
      try (apply Hle; discriminate).
    constructor; [exact IH |].
    apply (Permutation_Forall (insert_ascending_Permutation x l)).
    constructor; [| exact Hy].
    unfold String.leb. rewrite String.compare_antisym, E. reflexivity.
Qed.

Lemma sorted_ascending (l : list string) :
  StronglySorted (fun a b => String.leb a b = true) (sorted l).
Proof.
  induction l as [| x l IH]; cbn; [constructor |].
  now apply insert_ascending_sorted.
Qed.

(** The department filter offers each department of the table once, in
    ascending order, and never the empty cell.  Selecting all of them is
    not selecting none: it keeps the resources that have a department,
    while with no department in the table there is nothing to select and
    every resource is kept. *)
Theorem dept_options_select_all (df : DataFrame) :
  (forall d, In d (dept_options df)
             <-> exists r, In r df /\ Department r = Some d) /\
  NoDup (dept_options df) /\
  StronglySorted (fun a b => String.leb a b = true) (dept_options df) /\
  filtered_df df [] [] (dept_options df)
  = if truthy (dept_options df)
    then filter (fun r => notnull (Department r)) df
    else df.
Proof.
  assert (Hin : forall d, In d (dept_options df)
                          <-> exists r, In r df /\ Department r = Some d).
  { intros d. unfold dept_options.
    split.
    - intros H. apply (Permutation_in d (Permutation_sym (sorted_Permutation _)))
        in H.
      apply unique_values_In in H. destruct H as [H _].
      apply in_map_iff in H. destruct H as (r & E & Hr). eauto.
    - intros (r & Hr & E).
      apply (Permutation_in d (sorted_Permutation _)).
      apply unique_values_In. split; [| intros []].
      apply in_map_iff. exists r. now split. }
  split; [exact Hin |]. split; [| split].
  - unfold dept_options.
    apply (Permutation_NoDup (sorted_Permutation _)), unique_values_NoDup.
  - apply sorted_ascending.
  - unfold filtered_df. cbn [truthy].
    destruct (truthy (dept_options df)); [| reflexivity].
    apply filter_ext_in. intros r Hr.
    destruct (Department r) as [d |] eqn:E; cbn [isin notnull].
    + apply existsb_exists. exists d. split; [| apply String.eqb_refl].
      apply Hin. eauto.
    + reflexivity.
Qed.

(** ** Missing tag fields against the score (lines 121, 131) *)

Lemma Zsum_cons (x : Z) (l : list Z) : Zsum (x :: l) = (x + Zsum l)%Z.
Proof. reflexivity. Qed.

Lemma Zsum_Permutation (l l' : list Z) :
  Permutation l l' -> Zsum l = Zsum l'.
Proof.
  induction 1; rewrite ?Zsum_cons; lia.
Qed.

Lemma notnull_sum_cons (f : string) (fields : list string) (r : Resource) :
  notnull_sum (f :: fields) r
  = ((if notnull (column f r) then 1 else 0) + notnull_sum fields r)%Z.
Proof. reflexivity. Qed.

Lemma isnull_and_notnull (f : string) (df : DataFrame) :
  (Z.of_nat (List.length (filter (fun r => isnull (column f r)) df))
   + Zsum (map (fun r => if notnull (column f r) then 1 else 0) df)
   = len df)%Z.
Proof.
  unfold len, isnull.
  induction df as [| r df IH]; cbn [filter map List.length];
    [reflexivity |].
  rewrite Zsum_cons.
  destruct (notnull (column f r)); cbn [negb List.length]; lia.
Qed.

Lemma Zsum_notnull_sum_cons (f : string) (fields : list string)
  (df : DataFrame) :
  Zsum (map (notnull_sum (f :: fields)) df)
  = (Zsum (map (fun r => if notnull (column f r) then 1 else 0) df)
     + Zsum (map (notnull_sum fields) df))%Z.
Proof.
  induction df as [| r df IH]; cbn [map]; [reflexivity |].
  rewrite !Zsum_cons, IH, notnull_sum_cons. lia.
Qed.

Lemma Zsum_notnull_sum_nil (df : DataFrame) :
  Zsum (map (notnull_sum []) df) = 0%Z.
Proof.
  induction df as [| r df IH]; cbn [map]; [reflexivity |].
  rewrite Zsum_cons, IH. reflexivity.
Qed.

Lemma isnull_sum_and_scores (fields : list string) (df : DataFrame) :
  (Zsum (map snd (isnull_sum fields df))
   + Zsum (map (notnull_sum fields) df)
   = Z.of_nat (List.length fields) * len df)%Z.
Proof.
  induction fields as [| f fields IH].
  - rewrite Zsum_notnull_sum_nil. reflexivity.
  - unfold isnull_sum in *. cbn [map snd List.length].
    rewrite Zsum_cons, Zsum_notnull_sum_cons.
    pose proof (isnull_and_notnull f df). lia.
Qed.

(** Whatever order the missing-tag counts are listed in, they are the
    counts of the five tag fields, each between 0 and the number of
    resources, and together with the scores of all resources they add up to
    five per resource. *)
Theorem missing_tags_complement_scores (df : DataFrame)
  (sorted : list (string * Z)) :
  missing_tags df sorted ->
  Permutation tag_fields (map fst sorted) /\
  Forall (fun kv => (0 <= snd kv <= len df)%Z) sorted /\
  (Zsum (map snd sorted) + Zsum (map (notnull_sum tag_fields) df)
   = 5 * len df)%Z.
Proof.
  intros [P _]. split; [| split].
  - rewrite <- P. unfold isnull_sum. rewrite map_map. cbn [fst].
    now rewrite map_id.
  - apply (Permutation_Forall P). unfold isnull_sum.
    apply Forall_map, Forall_forall. intros f _. cbn [snd]. unfold len.
    pose proof (filter_length_le (fun r => isnull (column f r)) df). lia.
  - rewrite <- (Zsum_Permutation _ _ (Permutation_map snd P)).
    apply (isnull_sum_and_scores tag_fields df).
Qed.

Lemma missing_tags_complement_scores_witness :
  (Zsum [4; 4; 4; 4; 0] + Zsum (map (notnull_sum tag_fields) D4)
   = 5 * len D4)%Z.
Proof.
  refine (proj2 (proj2 (missing_tags_complement_scores D4
            [("Project", 4%Z); ("Owner", 4%Z); ("CostCenter", 4%Z);
             ("CreatedBy", 4%Z); ("Department", 0%Z)] _))).
  split.
  - apply Permutation_cons_append.
  - repeat (constructor; [| repeat (constructor; [cbn; lia |]);
                            constructor]).
    constructor.
Defined.

(** ** Loading: lines, quotes and blank lines (lines 11-13) *)

Lemma split_nonempty (sep : N) (s : text) : split sep s <> [].
Proof.
  destruct s as [| c s]; cbn [split]; [discriminate |].
  destruct (c =? sep)%N; [discriminate |].
  destruct (split sep s); discriminate.
Qed.

Lemma join_cons (sep : N) (l : text) (rest : list text) :
  rest <> [] -> join sep (l :: rest) = (l ++ sep :: join sep rest)%list.
Proof. destruct rest; [contradiction | reflexivity]. Qed.

Lemma join_split (sep : N) (s : text) : join sep (split sep s) = s.
Proof.
  induction s as [| c s IH]; cbn [split]; [reflexivity |].
  pose proof (split_nonempty sep s) as Hne.
  destruct (N.eqb_spec c sep) as [-> | Hc].
  - rewrite join_cons by assumption. cbn [app]. now rewrite IH.
  - destruct (split sep s) as [| l ls]; [contradiction |].
    destruct ls as [| l' ls].
    + cbn [join] in *. now rewrite IH.
    + rewrite join_cons by discriminate.
      rewrite join_cons in IH by discriminate.
      cbn [app]. now rewrite IH.
Qed.

Lemma split_sep_free (sep : N) (s : text) :
  Forall (fun l => ~ In sep l) (split sep s).
Proof.
  induction s as [| c s IH]; cbn [split].
  - repeat constructor. intros [].
  - destruct (N.eqb_spec c sep) as [-> | Hc].
    + constructor; [intros [] | exact IH].
    + destruct (split sep s) as [| l ls]; [repeat constructor |].
      * intros [E | []]. congruence.
      * inversion IH as [| ? ? Hl Hls]; subst.
        constructor; [| exact Hls].
        intros [E | Hin]; [congruence | contradiction].
Qed.

Lemma split_app (sep : N) (l t : text) :
  ~ In sep l -> split sep (l ++ sep :: t)%list = l :: split sep t.
Proof.
  induction l as [| c l IH]; intros Hl; cbn [app split].
  - now rewrite N.eqb_refl.
  - destruct (N.eqb_spec c sep) as [-> | Hc]; [destruct Hl; now left |].
    rewrite IH; [reflexivity |]. intros H. apply Hl. now right.
Qed.

Lemma split_free (sep : N) (l : text) : ~ In sep l -> split sep l = [l].
Proof.
  induction l as [| c l IH]; intros Hl; cbn [split]; [reflexivity |].
  destruct (N.eqb_spec c sep) as [-> | Hc]; [destruct Hl; now left |].
  rewrite IH; [reflexivity |]. intros H. apply Hl. now right.
Qed.

Lemma split_join (sep : N) (parts : list text) :
  parts <> [] -> Forall (fun l => ~ In sep l) parts ->
  split sep (join sep parts) = parts.
Proof.
  induction parts as [| l rest IH]; intros Hne H; [contradiction |].
  inversion H as [| ? ? Hl Hrest]; subst.
  destruct rest as [| l' rest].
  - cbn [join]. now apply split_free.
  - rewrite join_cons by discriminate.
    rewrite split_app by assumption.
    rewrite IH; [reflexivity | discriminate | exact Hrest].
Qed.

Lemma lstrip_spec (chars : N -> bool) (s : text) :
  exists pre,
    s = (pre ++ lstrip chars s)%list /\
    Forall (fun c => chars c = true) pre /\
    forall c, first_char (lstrip chars s) = Some c -> chars c = false.
Proof.
  induction s as [| c s (pre & E & Hpre & Hhd)]; cbn [lstrip].
  - exists []. repeat split; [constructor | discriminate].
  - destruct (chars c) eqn:Ec.
    + exists (c :: pre). cbn [app]. split; [now rewrite <- E |].
      split; [now constructor | exact Hhd].
    + exists []. split; [reflexivity |]. split; [constructor |].
      intros c' [= <-]. exact Ec.
Qed.

Lemma strip_spec (chars : N -> bool) (s : text) :
  exists pre post,
    s = (pre ++ strip chars s ++ post)%list /\
    Forall (fun c => chars c = true) pre /\
    Forall (fun c => chars c = true) post /\
    (forall c, first_char (strip chars s) = Some c -> chars c = false) /\
    (forall c, last_char (strip chars s) = Some c -> chars c = false).
Proof.
  destruct (lstrip_spec chars s) as (pre & E & Hpre & Hhd).
  destruct (lstrip_spec chars (rev (lstrip chars s)))
    as (tsop & E' & Hpost & Hlast).
  exists pre, (rev tsop). unfold strip, rstrip.
  assert (Et : lstrip chars s
               = (rev (lstrip chars (rev (lstrip chars s)))
                  ++ rev tsop)%list).
  { rewrite <- rev_app_distr, <- E'. now rewrite rev_involutive. }
  split; [now rewrite <- Et |].
  split; [exact Hpre |]. split; [now apply Forall_rev |]. split.
  - intros c Hc. apply Hhd. rewrite Et.
    destruct (rev (lstrip chars (rev (lstrip chars s)))); [discriminate |].
    exact Hc.
  - intros c Hc. apply Hlast. unfold last_char in Hc.
    now rewrite rev_involutive in Hc.
Qed.

Lemma cleaned_lines_newline_free (content : text) :
  Forall (fun cleaned => ~ In newline cleaned) (cleaned_lines content).
Proof.
  unfold cleaned_lines. apply Forall_map, Forall_forall. intros line Hline.
  apply filter_In in Hline. destruct Hline as [Hin _].
  destruct (strip_spec is_quote line) as (pre & post & E & _).
  pose proof (proj1 (Forall_forall _ _) (split_sep_free newline content)
                line Hin) as Hfree.
  intros H. apply Hfree. rewrite E. apply in_or_app. right.
  apply in_or_app. now left.
Qed.

(** Every cleaned line is a line of the file that is not blank, less the
    double quotes at its two ends: it neither starts nor ends with a
    double quote, what lies between is untouched, and it holds no line
    break. *)
Theorem cleaned_lines_unquoted (content : text) :
  Forall (fun cleaned =>
            first_char cleaned <> Some quote /\
            last_char cleaned <> Some quote /\
            ~ In newline cleaned /\
            exists line pre post,
              In line (lines content) /\
              truthy (strip isspace line) = true /\
              line = (pre ++ cleaned ++ post)%list /\
              Forall (eq quote) pre /\ Forall (eq quote) post)
         (cleaned_lines content).
Proof.
  unfold cleaned_lines. apply Forall_map, Forall_forall. intros line Hline.
  apply filter_In in Hline. destruct Hline as [Hin Hblank].
  destruct (strip_spec is_quote line)
    as (pre & post & E & Hpre & Hpost & Hfirst & Hlast).
  assert (Hq : forall l, Forall (fun c => is_quote c = true) l ->
                         Forall (eq quote) l).
  { intros l H. eapply Forall_impl; [| exact H].
    intros c Hc. symmetry. now apply N.eqb_eq. }
  split; [| split; [| split]].
  - intros H. specialize (Hfirst quote H). discriminate Hfirst.
  - intros H. specialize (Hlast quote H). discriminate Hlast.
  - intros H.
    pose proof (proj1 (Forall_forall _ _) (split_sep_free newline content)
                  line Hin) as Hfree.
    apply Hfree. rewrite E. apply in_or_app. right.
    apply in_or_app. now left.
  - exists line, pre, post. repeat split; auto.
Qed.

Lemma strip_plain (line : text) :
  first_char line <> Some quote -> last_char line <> Some quote ->
  strip is_quote line = line.
Proof.
  intros Hfirst Hlast.
  assert (L : forall s, first_char s <> Some quote -> lstrip is_quote s = s).
  { intros [| c s] H; cbn [lstrip]; [reflexivity |].
    unfold is_quote. destruct (N.eqb_spec c quote) as [-> | _];
      [now destruct H | reflexivity]. }
  unfold strip, rstrip. rewrite (L line Hfirst), (L (rev line) Hlast).
  apply rev_involutive.
Qed.

(** A file without blank lines whose lines carry no double quote at either
    end comes out of the cleaning as it went in. *)
Theorem cleaned_csv_of_plain_lines (content : text) :
  Forall plain_line (lines content) -> cleaned_csv content = content.
Proof.
  intros H. unfold cleaned_csv, cleaned_lines.
  assert (E : map (strip is_quote)
                (filter (fun line => truthy (strip isspace line))
                        (lines content))
              = lines content).
  { induction H as [| line rest (Hb & Hf & Hl) _ IH]; [reflexivity |].
    cbn [filter]. rewrite Hb. cbn [map].
    now rewrite IH, strip_plain. }
  rewrite E. apply join_split.
Qed.

Lemma cleaned_csv_of_plain_lines_witness : cleaned_csv plain_csv = plain_csv.
Proof.
  apply (cleaned_csv_of_plain_lines plain_csv).
  repeat (constructor;
          [split; [reflexivity | split; vm_compute; discriminate] |]).
  constructor.
Defined.

(** Read back line by line, the cleaned text gives the cleaned lines; when
    every line was blank it is the empty text, which reads as one empty
    line. *)
Theorem cleaned_csv_lines (content : text) :
  split newline (cleaned_csv content)
  = if truthy (cleaned_lines content) then cleaned_lines content else [[]].
Proof.
  unfold cleaned_csv.
  destruct (cleaned_lines content) as [| l rest] eqn:E; [reflexivity |].
  cbn [truthy]. apply split_join; [discriminate |].
  rewrite <- E.
  eapply Forall_impl; [| apply cleaned_lines_newline_free].
  intros a Ha. exact Ha.
Qed.

Example quoted_csv_cleaned : cleaned_csv quoted_csv = plain_csv.
Proof. reflexivity. Qed.

(** ** The summary text on an empty table (lines 288, 298) *)

(** The two percentages of the summary text divide by the length of their
    table without a test: each is a number on a table with rows and nan on
    an empty one, where the guarded percentage of line 64 is 0. *)
Theorem summary_pct_nan_on_empty (table : DataFrame) :
  (summary_before_pct table = nan <-> table = []) /\
  (summary_after_pct table = nan <-> table = []) /\
  percent_untagged [] = 0.
Proof.
  split; [| split; [| reflexivity]].
  - split; [| intros ->; reflexivity].
    intros E. destruct table as [| r table]; [reflexivity |].
    destruct (summary_pct_finite (before_untagged_count (r :: table))
                (len (r :: table))) as (q & Hq & _).
    + apply len_nonempty. discriminate.
    + unfold summary_before_pct in E. rewrite Hq in E. discriminate E.
  - split; [| intros ->; reflexivity].
    intros E. destruct table as [| r table]; [reflexivity |].
    destruct (summary_pct_finite (after_untagged_count (r :: table))
                (len (r :: table))) as (q & Hq & _).
    + apply len_nonempty. discriminate.
    + unfold summary_after_pct in E. rewrite Hq in E. discriminate E.
Qed.

(** ** The ranking keeps the lowest scores (line 127) *)

Lemma sorted_app_le {A : Type} (R : A -> A -> Prop) (l1 l2 : list A) :
  StronglySorted R (l1 ++ l2) ->
  forall a b, In a l1 -> In b l2 -> R a b.
Proof.
  induction l1 as [| x l1 IH]; cbn [app]; intros H a b Ha Hb;
    [destruct Ha |].
  inversion H as [| ? ? Hs Hx]; subst. destruct Ha as [<- | Ha].
  - apply (proj1 (Forall_forall _ _) Hx). apply in_or_app. now right.
  - now apply IH.
Qed.

(** Whatever order the sort leaves equal scores in, the ranking lists
    min(5, n) resources of the table and no resource left out has a lower
    score than a listed one. *)
Theorem lowest_compliance_keeps_lowest (df : DataFrame)
  (shown : list (option string * option string * option string
                 * option Z * option Q)) :
  lowest_compliance df shown ->
  exists listed rest,
    Permutation (with_TagScore df) (listed ++ rest) /\
    shown = map lowest_compliance_columns listed /\
    List.length listed = Nat.min 5 (List.length df) /\
    forall a b, In a listed -> In b rest ->
                key_le (TagScore a) (TagScore b).
Proof.
  intros (sorted & [P S] & ->).
  exists (firstn 5 sorted), (skipn 5 sorted).
  rewrite firstn_skipn. split; [exact P |].
  split; [apply firstn_map |]. split.
  - rewrite length_firstn, <- (Permutation_length P).
    unfold with_TagScore. now rewrite length_map.
  - rewrite <- (firstn_skipn 5 sorted) in S.
    exact (sorted_app_le by_TagScore _ _ S).
Qed.

Lemma lowest_compliance_keeps_lowest_witness :
  exists listed rest,
    Permutation (with_TagScore D_ranking) (listed ++ rest) /\
    map lowest_compliance_columns
        (Spec.lowest_compliance 5 (with_TagScore D_ranking))
    = map lowest_compliance_columns listed /\
    List.length listed = Nat.min 5 (List.length D_ranking) /\
    forall a b, In a listed -> In b rest ->
                key_le (TagScore a) (TagScore b).
Proof.
  exact (lowest_compliance_keeps_lowest D_ranking _
           (lowest_compliance_stable D_ranking)).
Defined.

(** ** The scenarios on a table the whole page accepts *)

Example D4_Apollo_sections :
  most_untagged_dept D4_Apollo = Ok (st_write "Eng" (Some 50)) /\
  highest_cost_project D4_Apollo = Ok (st_write "Apollo" (Some 150)) /\
  percent_untagged_cost D4_Apollo == 40.
Proof. repeat split. Qed.
